(** * Landed-cost pricing engine and estimate store

    A shallow embedding of [calculateEstimate] (the client's
    [@/lib/calculations]) and of [MemStorage] (server/storage.ts).

    The engine is written once, over an abstract numeric type carrying the
    operations the TypeScript code applies to [number]; it is then read at
    - exact rationals ([Q]), where the algebraic laws of the pricing
      computation are proved, and
    - IEEE-754 binary64 ([PrimFloat.float]), the type a JavaScript engine
      runs the code on, where the concrete scenarios are evaluated. *)

From Stdlib Require Import Bool List String Ascii ZArith QArith Qabs Qminmax Lia Lqa.
From Stdlib Require Import Permutation Sorted PrimFloat.
Import ListNotations.

Set Implicit Arguments.
Set Maximal Implicit Insertion.

(** ** Numbers *)

(** The operations of [number] used by the engine: the literals [0], [1] and
    [100], the four arithmetic operators and the comparison [a > b]. *)
Class Number (num : Type) : Type := {
  num0 : num;
  num1 : num;
  num100 : num;
  add : num -> num -> num;
  sub : num -> num -> num;
  mul : num -> num -> num;
  div : num -> num -> num;
  gtb : num -> num -> bool
}.

Declare Scope num_scope.
Delimit Scope num_scope with num.
Infix "+" := add : num_scope.
Infix "-" := sub : num_scope.
Infix "*" := mul : num_scope.
Infix "/" := div : num_scope.
Infix ">?" := gtb (at level 70, no associativity) : num_scope.

(** Exact rational arithmetic. [a > b] is the negation of [a <= b]. *)
#[export] Instance Q_Number : Number Q := {
  num0 := 0%Q;
  num1 := 1%Q;
  num100 := 100%Q;
  add := Qplus;
  sub := Qminus;
  mul := Qmult;
  div := Qdiv;
  gtb := fun a b => negb (Qle_bool a b)
}.

(** IEEE-754 binary64, round to nearest even: JavaScript's [number].
    [a > b] is false as soon as one side is NaN. *)
#[export] Instance binary64_Number : Number float := {
  num0 := 0%float;
  num1 := 1%float;
  num100 := 100%float;
  add := PrimFloat.add;
  sub := PrimFloat.sub;
  mul := PrimFloat.mul;
  div := PrimFloat.div;
  gtb := fun a b => PrimFloat.ltb b a
}.

(** ** Data model (calculations, lines 1-52) *)

Module ProductLine.
Record ProductLine (num : Type) : Type := {
  name : string;
  quantity : num;
  unitPrice : num;
  included : bool;
  margin : num
}.
End ProductLine.
Abbreviation ProductLine := ProductLine.ProductLine.

Module Input.
Record CalculationInput (num : Type) : Type := {
  products : list (ProductLine num);
  transportCost : num;
  packingCost : num;
  fumigationCost : num;
  customsClearanceCost : num;
  exportDutyRate : num;
  freightCost : num;
  importDuty : num;
  destinationCustomsClearance : num;
  destinationTransport : num;
  distributorMargin : num;
  retailerMargin : num
}.
End Input.
Abbreviation CalculationInput := Input.CalculationInput.

Module Breakdown.
Record ProductBreakdown (num : Type) : Type := {
  name : string;
  quantity : num;
  unitCost : num;
  margin : num;
  invoicePrice : num;
  distributorPrice : num;
  retailerPrice : num
}.
End Breakdown.
Abbreviation ProductBreakdown := Breakdown.ProductBreakdown.

Module Results.
Record CalculationResults (num : Type) : Type := {
  rawMaterialsCost : num;
  transportCost : num;
  packingCost : num;
  fumigationCost : num;
  customsClearanceCost : num;
  otherCosts : num;
  totalProcurementCost : num;
  marginAmount : num;
  exportDutyAmount : num;
  invoiceValue : num;
  freightCost : num;
  importDutyCost : num;
  destinationCustomsClearance : num;
  destinationTransport : num;
  otherLogisticsCosts : num;
  totalLogisticsCost : num;
  importerTotalCost : num;
  distributorPrice : num;
  retailerPrice : num;
  totalMarginPercentage : num;
  productBreakdown : list (ProductBreakdown num)
}.
End Results.
Abbreviation CalculationResults := Results.CalculationResults.

(** ** The engine (calculations, lines 54-153)

    Each local constant of [calculateEstimate] is a function of the input,
    under the name it has in the source; [reduce] is [fold_left]. *)

Section Engine.

Context {num : Type} `{Number num}.
Local Open Scope num_scope.

(** The predicate of the filter on line 56. *)
Definition isIncluded (p : ProductLine num) : bool :=
  ProductLine.included p && (ProductLine.quantity p >? num0).

Definition includedProducts (input : CalculationInput num) : list (ProductLine num) :=
  filter isIncluded (Input.products input).

Definition rawMaterialsCost (input : CalculationInput num) : num :=
  fold_left (fun sum product =>
               sum + (ProductLine.quantity product * ProductLine.unitPrice product))
            (includedProducts input) num0.

Definition otherCosts (input : CalculationInput num) : num :=
  Input.fumigationCost input + Input.customsClearanceCost input.

Definition totalProcurementCost (input : CalculationInput num) : num :=
  rawMaterialsCost input + Input.transportCost input + Input.packingCost input
  + otherCosts input.

Definition totalProductValue (input : CalculationInput num) : num :=
  fold_left (fun sum product =>
               sum + (ProductLine.quantity product * ProductLine.unitPrice product))
            (includedProducts input) num0.

Definition weightedMargin (input : CalculationInput num) : num :=
  if totalProductValue input >? num0
  then fold_left (fun sum product =>
                    let weight :=
                      (ProductLine.quantity product * ProductLine.unitPrice product)
                      / totalProductValue input in
                    sum + (ProductLine.margin product * weight))
                 (includedProducts input) num0
  else num0.

Definition marginAmount (input : CalculationInput num) : num :=
  totalProcurementCost input * (weightedMargin input / num100).

Definition invoiceValueBeforeDuty (input : CalculationInput num) : num :=
  totalProcurementCost input + marginAmount input.

Definition exportDutyAmount (input : CalculationInput num) : num :=
  invoiceValueBeforeDuty input * (Input.exportDutyRate input / num100).

Definition invoiceValue (input : CalculationInput num) : num :=
  invoiceValueBeforeDuty input + exportDutyAmount input.

Definition otherLogisticsCosts (input : CalculationInput num) : num :=
  Input.destinationCustomsClearance input + Input.destinationTransport input.

Definition totalLogisticsCost (input : CalculationInput num) : num :=
  Input.freightCost input + Input.importDuty input + otherLogisticsCosts input.

Definition importerTotalCost (input : CalculationInput num) : num :=
  invoiceValue input + totalLogisticsCost input.

Definition distributorPrice (input : CalculationInput num) : num :=
  importerTotalCost input * (num1 + Input.distributorMargin input / num100).

Definition retailerPrice (input : CalculationInput num) : num :=
  distributorPrice input * (num1 + Input.retailerMargin input / num100).

Definition totalMarginPercentage (input : CalculationInput num) : num :=
  if totalProcurementCost input >? num0
  then ((retailerPrice input - totalProcurementCost input)
        / totalProcurementCost input) * num100
  else num0.

(** The callback of the [map] on lines 108-128. [allocatedProcurementCost]
    and [allocatedImporterCost] are computed by the source and not used. *)
Definition breakdownOf (input : CalculationInput num) (product : ProductLine num)
  : ProductBreakdown num :=
  let productTotal := ProductLine.quantity product * ProductLine.unitPrice product in
  let productShare :=
    if totalProductValue input >? num0
    then productTotal / totalProductValue input
    else num0 in
  let allocatedProcurementCost := totalProcurementCost input * productShare in
  let allocatedInvoiceValue := invoiceValue input * productShare in
  let allocatedImporterCost := importerTotalCost input * productShare in
  let allocatedDistributorPrice := distributorPrice input * productShare in
  let allocatedRetailerPrice := retailerPrice input * productShare in
  {| Breakdown.name := ProductLine.name product;
     Breakdown.quantity := ProductLine.quantity product;
     Breakdown.unitCost := ProductLine.unitPrice product;
     Breakdown.margin := ProductLine.margin product;
     Breakdown.invoicePrice := allocatedInvoiceValue / ProductLine.quantity product;
     Breakdown.distributorPrice :=
       allocatedDistributorPrice / ProductLine.quantity product;
     Breakdown.retailerPrice := allocatedRetailerPrice / ProductLine.quantity product |}.

Definition productBreakdown (input : CalculationInput num)
  : list (ProductBreakdown num) :=
  map (breakdownOf input) (includedProducts input).

Definition calculateEstimate (input : CalculationInput num) : CalculationResults num :=
  {| Results.rawMaterialsCost := rawMaterialsCost input;
     Results.transportCost := Input.transportCost input;
     Results.packingCost := Input.packingCost input;
     Results.fumigationCost := Input.fumigationCost input;
     Results.customsClearanceCost := Input.customsClearanceCost input;
     Results.otherCosts := otherCosts input;
     Results.totalProcurementCost := totalProcurementCost input;
     Results.marginAmount := marginAmount input;
     Results.exportDutyAmount := exportDutyAmount input;
     Results.invoiceValue := invoiceValue input;
     Results.freightCost := Input.freightCost input;
     Results.importDutyCost := Input.importDuty input;
     Results.destinationCustomsClearance := Input.destinationCustomsClearance input;
     Results.destinationTransport := Input.destinationTransport input;
     Results.otherLogisticsCosts := otherLogisticsCosts input;
     Results.totalLogisticsCost := totalLogisticsCost input;
     Results.importerTotalCost := importerTotalCost input;
     Results.distributorPrice := distributorPrice input;
     Results.retailerPrice := retailerPrice input;
     Results.totalMarginPercentage := totalMarginPercentage input;
     Results.productBreakdown := productBreakdown input |}.

(** The input with another product list. *)
Definition withProducts (input : CalculationInput num) (ps : list (ProductLine num))
  : CalculationInput num :=
  {| Input.products := ps;
     Input.transportCost := Input.transportCost input;
     Input.packingCost := Input.packingCost input;
     Input.fumigationCost := Input.fumigationCost input;
     Input.customsClearanceCost := Input.customsClearanceCost input;
     Input.exportDutyRate := Input.exportDutyRate input;
     Input.freightCost := Input.freightCost input;
     Input.importDuty := Input.importDuty input;
     Input.destinationCustomsClearance := Input.destinationCustomsClearance input;
     Input.destinationTransport := Input.destinationTransport input;
     Input.distributorMargin := Input.distributorMargin input;
     Input.retailerMargin := Input.retailerMargin input |}.

End Engine.

Arguments withProducts {num} input ps.

(** ** The engine with trapping division

    JavaScript's [/] never raises: a zero divisor gives an infinity or NaN.
    To state that no division of [calculateEstimate] ever meets a zero
    divisor, the function is read a second time over [Q] in an error monad,
    [safeDiv] failing on a zero divisor. The conditional expressions of the
    source evaluate one branch only, and so do the [if]s here. *)

Definition bind {A B : Type} (c : option A) (k : A -> option B) : option B :=
  match c with
  | Some a => k a
  | None => None
  end.

Notation "x <- c ;; k" := (bind c (fun x => k))
  (at level 61, c at next level, right associativity).

Definition safeDiv (a b : Q) : option Q :=
  if Qeq_bool b 0 then None else Some (a / b)%Q.

(** [reduce] with a callback that may fail. *)
Fixpoint foldM {A B : Type} (f : A -> B -> option A) (l : list B) (a : A) : option A :=
  match l with
  | [] => Some a
  | x :: l' => a' <- f a x ;; foldM f l' a'
  end.

(** [map] with a callback that may fail. *)
Fixpoint mapM {A B : Type} (f : A -> option B) (l : list A) : option (list B) :=
  match l with
  | [] => Some []
  | x :: l' => y <- f x ;; ys <- mapM f l' ;; Some (y :: ys)
  end.

Definition calculateEstimate_checked (input : CalculationInput Q)
  : option (CalculationResults Q) :=
  let includedProducts := filter isIncluded (Input.products input) in
  let rawMaterialsCost :=
    fold_left (fun sum product =>
                 sum + (ProductLine.quantity product * ProductLine.unitPrice product))
              includedProducts 0 in
  let otherCosts := Input.fumigationCost input + Input.customsClearanceCost input in
  let totalProcurementCost :=
    rawMaterialsCost + Input.transportCost input + Input.packingCost input
    + otherCosts in
  let totalProductValue :=
    fold_left (fun sum product =>
                 sum + (ProductLine.quantity product * ProductLine.unitPrice product))
              includedProducts 0 in
  weightedMargin <-
    (if negb (Qle_bool totalProductValue 0)
     then foldM (fun sum product =>
                   weight <- safeDiv (ProductLine.quantity product
                                      * ProductLine.unitPrice product)
                                     totalProductValue ;;
                   Some (sum + (ProductLine.margin product * weight)))
                includedProducts 0
     else Some 0) ;;
  marginRate <- safeDiv weightedMargin 100 ;;
  let marginAmount := totalProcurementCost * marginRate in
  let invoiceValueBeforeDuty := totalProcurementCost + marginAmount in
  dutyRate <- safeDiv (Input.exportDutyRate input) 100 ;;
  let exportDutyAmount := invoiceValueBeforeDuty * dutyRate in
  let invoiceValue := invoiceValueBeforeDuty + exportDutyAmount in
  let otherLogisticsCosts :=
    Input.destinationCustomsClearance input + Input.destinationTransport input in
  let totalLogisticsCost :=
    Input.freightCost input + Input.importDuty input + otherLogisticsCosts in
  let importerTotalCost := invoiceValue + totalLogisticsCost in
  distributorRate <- safeDiv (Input.distributorMargin input) 100 ;;
  let distributorPrice := importerTotalCost * (1 + distributorRate) in
  retailerRate <- safeDiv (Input.retailerMargin input) 100 ;;
  let retailerPrice := distributorPrice * (1 + retailerRate) in
  totalMarginPercentage <-
    (if negb (Qle_bool totalProcurementCost 0)
     then ratio <- safeDiv (retailerPrice - totalProcurementCost)
                           totalProcurementCost ;;
          Some (ratio * 100)
     else Some 0) ;;
  productBreakdown <-
    mapM (fun product =>
            let productTotal :=
              ProductLine.quantity product * ProductLine.unitPrice product in
            productShare <-
              (if negb (Qle_bool totalProductValue 0)
               then safeDiv productTotal totalProductValue
               else Some 0) ;;
            let allocatedProcurementCost := totalProcurementCost * productShare in
            let allocatedInvoiceValue := invoiceValue * productShare in
            let allocatedImporterCost := importerTotalCost * productShare in
            let allocatedDistributorPrice := distributorPrice * productShare in
            let allocatedRetailerPrice := retailerPrice * productShare in
            invoicePrice <- safeDiv allocatedInvoiceValue
                                    (ProductLine.quantity product) ;;
            distributorUnit <- safeDiv allocatedDistributorPrice
                                       (ProductLine.quantity product) ;;
            retailerUnit <- safeDiv allocatedRetailerPrice
                                    (ProductLine.quantity product) ;;
            Some {| Breakdown.name := ProductLine.name product;
                    Breakdown.quantity := ProductLine.quantity product;
                    Breakdown.unitCost := ProductLine.unitPrice product;
                    Breakdown.margin := ProductLine.margin product;
                    Breakdown.invoicePrice := invoicePrice;
                    Breakdown.distributorPrice := distributorUnit;
                    Breakdown.retailerPrice := retailerUnit |})
         includedProducts ;;
  Some {| Results.rawMaterialsCost := rawMaterialsCost;
          Results.transportCost := Input.transportCost input;
          Results.packingCost := Input.packingCost input;
          Results.fumigationCost := Input.fumigationCost input;
          Results.customsClearanceCost := Input.customsClearanceCost input;
          Results.otherCosts := otherCosts;
          Results.totalProcurementCost := totalProcurementCost;
          Results.marginAmount := marginAmount;
          Results.exportDutyAmount := exportDutyAmount;
          Results.invoiceValue := invoiceValue;
          Results.freightCost := Input.freightCost input;
          Results.importDutyCost := Input.importDuty input;
          Results.destinationCustomsClearance := Input.destinationCustomsClearance input;
          Results.destinationTransport := Input.destinationTransport input;
          Results.otherLogisticsCosts := otherLogisticsCosts;
          Results.totalLogisticsCost := totalLogisticsCost;
          Results.importerTotalCost := importerTotalCost;
          Results.distributorPrice := distributorPrice;
          Results.retailerPrice := retailerPrice;
          Results.totalMarginPercentage := totalMarginPercentage;
          Results.productBreakdown := productBreakdown |}.

(** ** Quantities the properties are stated with *)

(** A line's value, [quantity * unitPrice]. *)
Definition lineValue (p : ProductLine Q) : Q :=
  ProductLine.quantity p * ProductLine.unitPrice p.

(** The sum of [f] over a list, accumulated from the left as [reduce] does. *)
Definition sumOver {A : Type} (f : A -> Q) (l : list A) : Q :=
  fold_left (fun s x => s + f x) l 0.

(** The allocation share of a line: its part of the total product value. *)
Definition valueShare (input : CalculationInput Q) (p : ProductLine Q) : Q :=
  lineValue p / totalProductValue input.

(** The value-share-weighted average of the filtered lines' margins. *)
Definition shareWeightedMargin (input : CalculationInput Q) : Q :=
  sumOver (fun p => ProductLine.margin p * valueShare input p) (includedProducts input).

(** The filtered lines paired with their breakdown entries, and the sum over
    them of a per-unit price times the line's quantity. *)
Definition roundTrip (price : ProductBreakdown Q -> Q) (input : CalculationInput Q) : Q :=
  sumOver (fun pb => price (snd pb) * ProductLine.quantity (fst pb))
          (combine (includedProducts input)
                   (Results.productBreakdown (calculateEstimate input))).

(** [a] and [b] agree within a relative tolerance of 1e-6. *)
Definition withinTolerance (a b : Q) : Prop :=
  Qabs (a - b) <= (1 # 1000000) * Qmax (Qabs a) (Qabs b).

(** A line is excluded by the filter of line 56, in the words of the data
    model: not included, or of quantity at most 0. *)
Definition excluded (p : ProductLine Q) : Prop :=
  ProductLine.included p = false \/ ProductLine.quantity p <= 0.

(** A float or rational product line and an input whose costs and rates
    other than [transportCost] are all 0, for the scenarios. *)
Definition line {num : Type} (n : string) (q u m : num) : ProductLine num :=
  {| ProductLine.name := n;
     ProductLine.quantity := q;
     ProductLine.unitPrice := u;
     ProductLine.included := true;
     ProductLine.margin := m |}.

Definition bareInput {num : Type} `{Number num} (ps : list (ProductLine num))
  (transport : num) : CalculationInput num :=
  {| Input.products := ps;
     Input.transportCost := transport;
     Input.packingCost := num0;
     Input.fumigationCost := num0;
     Input.customsClearanceCost := num0;
     Input.exportDutyRate := num0;
     Input.freightCost := num0;
     Input.importDuty := num0;
     Input.destinationCustomsClearance := num0;
     Input.destinationTransport := num0;
     Input.distributorMargin := num0;
     Input.retailerMargin := num0 |}.

(** Scenario A: one line of 10 units at 100 with a margin of 15, every other
    cost and rate 0. Scenario B: two lines worth 1000 each, with margins
    [m1] and [m2]. A line of no value next to a transport cost of 100. *)
Definition scenarioA_exact : CalculationInput Q :=
  bareInput [line "Basmati Rice" 10 100 15] 0.

Definition scenarioA_binary64 : CalculationInput float :=
  bareInput [line "Basmati Rice" 10%float 100%float 15%float] 0%float.

Definition scenarioB_exact (m1 m2 : Q) : CalculationInput Q :=
  bareInput [line "Basmati Rice" 10 100 m1; line "Red Lentils" 20 50 m2] 0.

Definition scenarioB_binary64 (m1 m2 : float) : CalculationInput float :=
  bareInput [line "Basmati Rice" 10%float 100%float m1;
             line "Red Lentils" 20%float 50%float m2] 0%float.

Definition freeLine_exact : CalculationInput Q :=
  bareInput [line "Basmati Rice" 1 0 0] 100.

Definition freeLine_binary64 : CalculationInput float :=
  bareInput [line "Basmati Rice" 1%float 0%float 0%float] 100%float.

(** The first entry of a breakdown, read through [f]. *)
Definition firstBreakdown {num A : Type} (f : ProductBreakdown num -> A)
  (r : CalculationResults num) : option A :=
  option_map f (nth_error (Results.productBreakdown r) 0).

(** A line the filter drops, and an input made of dropped lines only. *)
Definition hiddenLine : ProductLine Q :=
  {| ProductLine.name := "Black Gram";
     ProductLine.quantity := 5;
     ProductLine.unitPrice := 80;
     ProductLine.included := false;
     ProductLine.margin := 30 |}.

Definition allHidden : CalculationInput Q :=
  bareInput [hiddenLine; line "Finger Millet" 0 40 12] 250.

(** A product worth 1234 with a margin of 12 under an export duty of 3, and
    the closed form of the invoice value, both in binary64. *)
Definition dutyInput_binary64 : CalculationInput float :=
  {| Input.products := [line "Basmati Rice" 1%float 1234%float 12%float];
     Input.transportCost := 0%float;
     Input.packingCost := 0%float;
     Input.fumigationCost := 0%float;
     Input.customsClearanceCost := 0%float;
     Input.exportDutyRate := 3%float;
     Input.freightCost := 0%float;
     Input.importDuty := 0%float;
     Input.destinationCustomsClearance := 0%float;
     Input.destinationTransport := 0%float;
     Input.distributorMargin := 0%float;
     Input.retailerMargin := 0%float |}.

Definition invoiceClosedForm {num : Type} `{Number num} (input : CalculationInput num)
  : num :=
  (totalProcurementCost input * (num1 + weightedMargin input / num100)
   * (num1 + Input.exportDutyRate input / num100))%num.

(** ** The estimate store (shared/schema.ts, server/storage.ts)

    Decimal columns are strings, as drizzle types them; the two [jsonb]
    columns carry values of a type [Json] left open. Identifiers are
    integers ([Z]); the rounding of [currentId++] beyond 2^53 is out of
    reach of any run and is not modelled. *)

Module Estimate.
Record Estimate (Json : Type) : Type := {
  id : Z;
  containerId : string;
  destination : string;
  estimateDate : string;
  status : string;
  products : Json;
  transportCost : string;
  packingCost : string;
  fumigationCost : string;
  customsClearanceCost : string;
  exportDutyRate : string;
  defaultMargin : string;
  freightCost : string;
  importDuty : string;
  destinationCustomsClearance : string;
  destinationTransport : string;
  distributorMargin : string;
  retailerMargin : string;
  calculationResults : option Json;
  createdBy : string;
  userRole : string
}.
End Estimate.
Abbreviation Estimate := Estimate.Estimate.

(** [InsertEstimate]: [id] omitted, the columns with a default optional. *)
Module Insert.
Record InsertEstimate (Json : Type) : Type := {
  containerId : string;
  destination : string;
  estimateDate : string;
  status : option string;
  products : Json;
  transportCost : option string;
  packingCost : option string;
  fumigationCost : option string;
  customsClearanceCost : option string;
  exportDutyRate : option string;
  defaultMargin : option string;
  freightCost : option string;
  importDuty : option string;
  destinationCustomsClearance : option string;
  destinationTransport : option string;
  distributorMargin : option string;
  retailerMargin : option string;
  calculationResults : option Json;
  createdBy : string;
  userRole : string
}.
End Insert.
Abbreviation InsertEstimate := Insert.InsertEstimate.

(** [UpdateEstimate]: [id] omitted, every column optional. *)
Module Update.
Record UpdateEstimate (Json : Type) : Type := {
  containerId : option string;
  destination : option string;
  estimateDate : option string;
  status : option string;
  products : option Json;
  transportCost : option string;
  packingCost : option string;
  fumigationCost : option string;
  customsClearanceCost : option string;
  exportDutyRate : option string;
  defaultMargin : option string;
  freightCost : option string;
  importDuty : option string;
  destinationCustomsClearance : option string;
  destinationTransport : option string;
  distributorMargin : option string;
  retailerMargin : option string;
  calculationResults : option (option Json);
  createdBy : option string;
  userRole : option string
}.
End Update.
Abbreviation UpdateEstimate := Update.UpdateEstimate.

(** *** A JavaScript [Map] with number keys

    Entries are kept in insertion order: [set] on a present key replaces the
    value in place, on an absent key it appends. *)

Section JsMap.

Variable V : Type.

Definition JsMap : Type := list (Z * V).

Fixpoint map_get (k : Z) (m : JsMap) : option V :=
  match m with
  | [] => None
  | (k', v) :: m' => if (k =? k')%Z then Some v else map_get k m'
  end.

Fixpoint map_set (k : Z) (v : V) (m : JsMap) : JsMap :=
  match m with
  | [] => [(k, v)]
  | (k', v') :: m' =>
      if (k =? k')%Z then (k, v) :: m' else (k', v') :: map_set k v m'
  end.

(** [delete] returns whether the key was present, with the map without it. *)
Fixpoint map_delete (k : Z) (m : JsMap) : bool * JsMap :=
  match m with
  | [] => (false, [])
  | (k', v') :: m' =>
      if (k =? k')%Z then (true, m')
      else let (found, rest) := map_delete k m' in (found, (k', v') :: rest)
  end.

Definition map_values (m : JsMap) : list V := map snd m.

Definition map_keys (m : JsMap) : list Z := map fst m.

End JsMap.

(** *** [Array.prototype.sort] with a comparator

    ECMAScript specifies a stable sort: [a] is placed before [b] when
    [cmp a b < 0], and elements the comparator does not separate keep their
    order. Insertion from the right end is one such sort. *)

Section ArraySort.

Variable A : Type.
Variable cmp : A -> A -> Z.

Fixpoint insertSorted (x : A) (l : list A) : list A :=
  match l with
  | [] => [x]
  | y :: l' => if (cmp x y <=? 0)%Z then x :: l else y :: insertSorted x l'
  end.

Definition Array_sort (l : list A) : list A := fold_right insertSorted [] l.

End ArraySort.

(** *** Strings

    [String.prototype.toLowerCase] is taken as given: a function on
    strings, whatever it does to characters beyond ASCII. What a proof
    needs of it is a hypothesis of that proof: that it maps the empty
    string to itself, or that on text of ASCII characters it is
    [asciiLowerCase], which lowers the letters A-Z and changes nothing
    else. [includes s t] tests whether [t] occurs in [s]. *)

Class LowerCase : Type := toLowerCase : string -> string.

Definition toLowerAscii (c : ascii) : ascii :=
  let n := nat_of_ascii c in
  if ((65 <=? n) && (n <=? 90))%nat then ascii_of_nat (n + 32) else c.

Fixpoint asciiLowerCase (s : string) : string :=
  match s with
  | EmptyString => EmptyString
  | String c s' => String (toLowerAscii c) (asciiLowerCase s')
  end.



(** The lowering to use on text known to be ASCII, for the examples. *)
Definition asciiOnly : LowerCase := asciiLowerCase.







Fixpoint includes (s t : string) : bool :=
  if String.prefix t s then true
  else match s with
       | EmptyString => false
       | String _ s' => includes s' t
       end.

(** [x || d] on an optional string: [undefined] and the empty string are
    falsy. *)
Definition orDefault (x : option string) (d : string) : string :=
  match x with
  | Some s => if String.eqb s EmptyString then d else s
  | None => d
  end.

(** What [x || d] is to give: [d] for an absent or empty [x], and [x]
    itself otherwise. *)
Definition defaulted (x : option string) (d y : string) : Prop :=
  (x = None \/ x = Some EmptyString -> y = d)
  /\ (forall s, x = Some s -> s <> EmptyString -> y = s).

(** A key of a spread partial object overrides when it is present. *)
Definition override {A : Type} (x : option A) (old : A) : A :=
  match x with
  | Some v => v
  | None => old
  end.

(** *** MemStorage *)

Section MemStorage.

Variable Json : Type.
Context {L : LowerCase}.

Record MemStorage : Type := {
  estimates : JsMap (Estimate Json);
  currentId : Z
}.

Definition constructor : MemStorage :=
  {| estimates := []; currentId := 1 |}.

Definition byIdDescending (a b : Estimate Json) : Z :=
  (Estimate.id b - Estimate.id a)%Z.

Definition getEstimate (id : Z) (this : MemStorage) : option (Estimate Json) :=
  map_get id (estimates this).

Definition getAllEstimates (this : MemStorage) : list (Estimate Json) :=
  Array_sort byIdDescending (map_values (estimates this)).

Definition getEstimatesByUser (createdBy : string) (this : MemStorage)
  : list (Estimate Json) :=
  Array_sort byIdDescending
    (filter (fun estimate => String.eqb (Estimate.createdBy estimate) createdBy)
            (map_values (estimates this))).

(** [createEstimate] returns the store after the call and the record made. *)
Definition createEstimate (insertEstimate : InsertEstimate Json) (this : MemStorage)
  : MemStorage * Estimate Json :=
  let id := currentId this in
  let estimate :=
    {| Estimate.id := id;
       Estimate.containerId := Insert.containerId insertEstimate;
       Estimate.destination := Insert.destination insertEstimate;
       Estimate.estimateDate := Insert.estimateDate insertEstimate;
       Estimate.status := orDefault (Insert.status insertEstimate) "draft";
       Estimate.products := Insert.products insertEstimate;
       Estimate.transportCost := orDefault (Insert.transportCost insertEstimate) "0";
       Estimate.packingCost := orDefault (Insert.packingCost insertEstimate) "0";
       Estimate.fumigationCost := orDefault (Insert.fumigationCost insertEstimate) "0";
       Estimate.customsClearanceCost :=
         orDefault (Insert.customsClearanceCost insertEstimate) "0";
       Estimate.exportDutyRate := orDefault (Insert.exportDutyRate insertEstimate) "0";
       Estimate.defaultMargin := orDefault (Insert.defaultMargin insertEstimate) "15";
       Estimate.freightCost := orDefault (Insert.freightCost insertEstimate) "0";
       Estimate.importDuty := orDefault (Insert.importDuty insertEstimate) "0";
       Estimate.destinationCustomsClearance :=
         orDefault (Insert.destinationCustomsClearance insertEstimate) "0";
       Estimate.destinationTransport :=
         orDefault (Insert.destinationTransport insertEstimate) "0";
       Estimate.distributorMargin :=
         orDefault (Insert.distributorMargin insertEstimate) "12";
       Estimate.retailerMargin := orDefault (Insert.retailerMargin insertEstimate) "20";
       Estimate.calculationResults := Insert.calculationResults insertEstimate;
       Estimate.createdBy := Insert.createdBy insertEstimate;
       Estimate.userRole := Insert.userRole insertEstimate |} in
  ({| estimates := map_set id estimate (estimates this);
      currentId := (currentId this + 1)%Z |},
   estimate).

Definition applyUpdate (existing : Estimate Json) (u : UpdateEstimate Json)
  : Estimate Json :=
  {| Estimate.id := Estimate.id existing;
     Estimate.containerId := override (Update.containerId u) (Estimate.containerId existing);
     Estimate.destination := override (Update.destination u) (Estimate.destination existing);
     Estimate.estimateDate :=
       override (Update.estimateDate u) (Estimate.estimateDate existing);
     Estimate.status := override (Update.status u) (Estimate.status existing);
     Estimate.products := override (Update.products u) (Estimate.products existing);
     Estimate.transportCost :=
       override (Update.transportCost u) (Estimate.transportCost existing);
     Estimate.packingCost := override (Update.packingCost u) (Estimate.packingCost existing);
     Estimate.fumigationCost :=
       override (Update.fumigationCost u) (Estimate.fumigationCost existing);
     Estimate.customsClearanceCost :=
       override (Update.customsClearanceCost u) (Estimate.customsClearanceCost existing);
     Estimate.exportDutyRate :=
       override (Update.exportDutyRate u) (Estimate.exportDutyRate existing);
     Estimate.defaultMargin :=
       override (Update.defaultMargin u) (Estimate.defaultMargin existing);
     Estimate.freightCost := override (Update.freightCost u) (Estimate.freightCost existing);
     Estimate.importDuty := override (Update.importDuty u) (Estimate.importDuty existing);
     Estimate.destinationCustomsClearance :=
       override (Update.destinationCustomsClearance u)
                (Estimate.destinationCustomsClearance existing);
     Estimate.destinationTransport :=
       override (Update.destinationTransport u) (Estimate.destinationTransport existing);
     Estimate.distributorMargin :=
       override (Update.distributorMargin u) (Estimate.distributorMargin existing);
     Estimate.retailerMargin :=
       override (Update.retailerMargin u) (Estimate.retailerMargin existing);
     Estimate.calculationResults :=
       override (Update.calculationResults u) (Estimate.calculationResults existing);
     Estimate.createdBy := override (Update.createdBy u) (Estimate.createdBy existing);
     Estimate.userRole := override (Update.userRole u) (Estimate.userRole existing) |}.

Definition updateEstimate (id : Z) (updateEstimate : UpdateEstimate Json)
  (this : MemStorage) : MemStorage * option (Estimate Json) :=
  match map_get id (estimates this) with
  | None => (this, None)
  | Some existing =>
      let updated := applyUpdate existing updateEstimate in
      ({| estimates := map_set id updated (estimates this);
          currentId := currentId this |},
       Some updated)
  end.

Definition deleteEstimate (id : Z) (this : MemStorage) : MemStorage * bool :=
  let (found, rest) := map_delete id (estimates this) in
  ({| estimates := rest; currentId := currentId this |}, found).

Definition getEstimatesByStatus (status : string) (this : MemStorage)
  : list (Estimate Json) :=
  Array_sort byIdDescending
    (filter (fun estimate => String.eqb (Estimate.status estimate) status)
            (map_values (estimates this))).

Definition searchEstimates (query : string) (this : MemStorage)
  : list (Estimate Json) :=
  let lowercaseQuery := toLowerCase query in
  Array_sort byIdDescending
    (filter (fun estimate =>
               includes (toLowerCase (Estimate.containerId estimate)) lowercaseQuery
               || includes (toLowerCase (Estimate.destination estimate)) lowercaseQuery)
            (map_values (estimates this))).

(** *** Runs of the store

    The calls that change a store, and the identifiers handed out by
    [createEstimate] along a sequence of calls, oldest first. *)

Inductive Call : Type :=
| Create (insertEstimate : InsertEstimate Json)
| UpdateCall (id : Z) (update : UpdateEstimate Json)
| Delete (id : Z).

Definition perform (this : MemStorage) (c : Call) : MemStorage * list Z :=
  match c with
  | Create ins =>
      let (this', e) := createEstimate ins this in (this', [Estimate.id e])
  | UpdateCall id u => (fst (updateEstimate id u this), [])
  | Delete id => (fst (deleteEstimate id this), [])
  end.

Fixpoint run (calls : list Call) (this : MemStorage) : MemStorage * list Z :=
  match calls with
  | [] => (this, [])
  | c :: calls' =>
      let (this', assigned) := perform this c in
      let (final, later) := run calls' this' in
      (final, assigned ++ later)
  end.

(** Every key of the store lies below the next identifier. *)
Definition keysBelowNext (this : MemStorage) : Prop :=
  Forall (fun k => (k < currentId this)%Z) (map_keys (estimates this)).

(** Every record is stored under its own identifier, and no key twice. *)
Definition ownIds (this : MemStorage) : Prop :=
  NoDup (map_keys (estimates this))
  /\ Forall (fun kv => Estimate.id (snd kv) = fst kv) (estimates this).

(** A store reached by calls on a new one. *)
Definition reachable (this : MemStorage) : Prop :=
  exists calls : list Call, this = fst (run calls constructor).

(** Records listed most recent first: identifiers never increase. *)
Definition descendingById (l : list (Estimate Json)) : Prop :=
  StronglySorted (fun a b => (Estimate.id b <= Estimate.id a)%Z) l.


End MemStorage.

(** A store with nothing in its [jsonb] columns, for the examples. *)
Definition sampleInsert (container dest : string) (status : option string)
  : InsertEstimate unit :=
  {| Insert.containerId := container;
     Insert.destination := dest;
     Insert.estimateDate := "2024-01-15";
     Insert.status := status;
     Insert.products := tt;
     Insert.transportCost := Some "120.50"%string;
     Insert.packingCost := None;
     Insert.fumigationCost := Some EmptyString;
     Insert.customsClearanceCost := None;
     Insert.exportDutyRate := None;
     Insert.defaultMargin := None;
     Insert.freightCost := None;
     Insert.importDuty := None;
     Insert.destinationCustomsClearance := None;
     Insert.destinationTransport := None;
     Insert.distributorMargin := None;
     Insert.retailerMargin := Some "25"%string;
     Insert.calculationResults := None;
     Insert.createdBy := "admin";
     Insert.userRole := "admin" |}.

Definition sampleCalls : list (Call unit) :=
  [Create (sampleInsert "CNT-001" "Hamburg" None);
   Create (sampleInsert "cnt-002" "Rotterdam" (Some "completed"%string));
   @Delete unit 1%Z;
   Create (sampleInsert "MSK-003" "Port of HAMBURG" (Some "completed"%string));
   Create (sampleInsert "CNT-004" "hamburg" (Some EmptyString))].

Definition sampleStore : MemStorage unit := fst (run sampleCalls (constructor unit)).

(** The third record of the sample store. *)
Definition hamburgRecord : Estimate unit :=
  snd (createEstimate
         (sampleInsert "MSK-003" "Port of HAMBURG" (Some "completed"%string))
         {| estimates := []; currentId := 3 |}).

(** ** The form's use of the engine (create-estimate-form)

    [applyDefaultMargin] gives every product line of the form the form's
    default margin; [calculateResults] then runs [calculateEstimate] on
    the form's values. *)

Definition applyDefaultMargin {num : Type} (defaultMargin : num)
  (products : list (ProductLine num)) : list (ProductLine num) :=
  map (fun product =>
         {| ProductLine.name := ProductLine.name product;
            ProductLine.quantity := ProductLine.quantity product;
            ProductLine.unitPrice := ProductLine.unitPrice product;
            ProductLine.included := ProductLine.included product;
            ProductLine.margin := defaultMargin |})
      products.

(** The invariant of the data model: quantities, prices, costs and
    percentages are not negative. *)
Definition nonNegativeLine (p : ProductLine Q) : Prop :=
  0 <= ProductLine.quantity p /\ 0 <= ProductLine.unitPrice p
  /\ 0 <= ProductLine.margin p.

Definition nonNegativeInput (input : CalculationInput Q) : Prop :=
  Forall nonNegativeLine (Input.products input)
  /\ 0 <= Input.transportCost input
  /\ 0 <= Input.packingCost input
  /\ 0 <= Input.fumigationCost input
  /\ 0 <= Input.customsClearanceCost input
  /\ 0 <= Input.exportDutyRate input
  /\ 0 <= Input.freightCost input
  /\ 0 <= Input.importDuty input
  /\ 0 <= Input.destinationCustomsClearance input
  /\ 0 <= Input.destinationTransport input
  /\ 0 <= Input.distributorMargin input
  /\ 0 <= Input.retailerMargin input.

(** An input with costs at origin and destination, a duty and margins. *)
Definition shipment : CalculationInput Q :=
  {| Input.products :=
       [line "Basmati Rice" 10 100 10; hiddenLine; line "Red Lentils" 20 50 20];
     Input.transportCost := 120;
     Input.packingCost := 60;
     Input.fumigationCost := 15;
     Input.customsClearanceCost := 5;
     Input.exportDutyRate := 5;
     Input.freightCost := 400;
     Input.importDuty := 90;
     Input.destinationCustomsClearance := 30;
     Input.destinationTransport := 45;
     Input.distributorMargin := 12;
     Input.retailerMargin := 20 |}.

(** ** The history view's filter (estimates-history)

    The view fetches /api/estimates, the list [getAllEstimates] returns,
    and filters it by the search box and the status selector, whose value
    "all" stands for no filter. *)

Section History.

Variable Json : Type.
Context {L : LowerCase}.

Definition filteredEstimates (searchQuery statusFilter : string)
  (estimates : list (Estimate Json)) : list (Estimate Json) :=
  filter (fun estimate =>
            let matchesSearch :=
              String.eqb searchQuery EmptyString
              || includes (toLowerCase (Estimate.containerId estimate))
                          (toLowerCase searchQuery)
              || includes (toLowerCase (Estimate.destination estimate))
                          (toLowerCase searchQuery) in
            let matchesStatus :=
              String.eqb statusFilter "all"
              || String.eqb (Estimate.status estimate) statusFilter in
            matchesSearch && matchesStatus)
         estimates.

End History.

(** ** The routes (server/routes)

    Each handler takes what it reads of the request and the store, and
    gives the store after the call and the response. [parseInt] and the two
    zod schemas are taken as given: [parseInt] gives no number where
    JavaScript's gives NaN, and a schema gives its issues or the validated
    data. The store's methods raise nothing, so the handlers' [catch]
    branches answer validation failures only. *)

Inductive Payload (Json Issues : Type) : Type :=
| OneEstimate (estimate : Estimate Json)
| Estimates (estimates : list (Estimate Json))
| Message (message : string)
| Invalid (message : string) (errors : Issues)
| NoBody.

Arguments OneEstimate {Json Issues} estimate.
Arguments Estimates {Json Issues} estimates.
Arguments Message {Json Issues} message.
Arguments Invalid {Json Issues} message errors.
Arguments NoBody {Json Issues}.

Record Response (Json Issues : Type) : Type := {
  statusCode : Z;
  payload : Payload Json Issues
}.

Section Routes.

Variable Json : Type.
Variable Body : Type.
Variable Issues : Type.
Context {L : LowerCase}.
Variable parseInt : string -> option Z.
Variable insertEstimateSchema_parse : Body -> Issues + InsertEstimate Json.
Variable updateEstimateSchema_parse : Body -> Issues + UpdateEstimate Json.

Definition respond (code : Z) (body : Payload Json Issues) : Response Json Issues :=
  {| statusCode := code; payload := body |}.

(** GET /api/estimates *)
Definition listRoute (this : MemStorage Json) : MemStorage Json * Response Json Issues :=
  (this, respond 200 (Estimates (getAllEstimates this))).

(** GET /api/estimates/status/:status *)
Definition statusRoute (status : string) (this : MemStorage Json)
  : MemStorage Json * Response Json Issues :=
  (this, respond 200 (Estimates (getEstimatesByStatus status this))).

(** GET /api/estimates/search; [q] is [None] when the query has no [q] or
    one that is not a string. *)
Definition searchRoute (q : option string) (this : MemStorage Json)
  : MemStorage Json * Response Json Issues :=
  match q with
  | Some query =>
      if String.eqb query EmptyString
      then (this, respond 400 (Message "Search query is required"))
      else (this, respond 200 (Estimates (searchEstimates query this)))
  | None => (this, respond 400 (Message "Search query is required"))
  end.

(** GET /api/estimates/:id *)
Definition getRoute (idParam : string) (this : MemStorage Json)
  : MemStorage Json * Response Json Issues :=
  match parseInt idParam with
  | None => (this, respond 400 (Message "Invalid estimate ID"))
  | Some id =>
      match getEstimate id this with
      | None => (this, respond 404 (Message "Estimate not found"))
      | Some estimate => (this, respond 200 (OneEstimate estimate))
      end
  end.

(** POST /api/estimates *)
Definition createRoute (body : Body) (this : MemStorage Json)
  : MemStorage Json * Response Json Issues :=
  match insertEstimateSchema_parse body with
  | inl errors => (this, respond 400 (Invalid "Invalid data" errors))
  | inr validatedData =>
      let (this', estimate) := createEstimate validatedData this in
      (this', respond 201 (OneEstimate estimate))
  end.

(** PATCH /api/estimates/:id *)
Definition patchRoute (idParam : string) (body : Body) (this : MemStorage Json)
  : MemStorage Json * Response Json Issues :=
  match parseInt idParam with
  | None => (this, respond 400 (Message "Invalid estimate ID"))
  | Some id =>
      match updateEstimateSchema_parse body with
      | inl errors => (this, respond 400 (Invalid "Invalid data" errors))
      | inr validatedData =>
          match updateEstimate id validatedData this with
          | (this', None) => (this', respond 404 (Message "Estimate not found"))
          | (this', Some estimate) => (this', respond 200 (OneEstimate estimate))
          end
      end
  end.

(** DELETE /api/estimates/:id *)
Definition deleteRoute (idParam : string) (this : MemStorage Json)
  : MemStorage Json * Response Json Issues :=
  match parseInt idParam with
  | None => (this, respond 400 (Message "Invalid estimate ID"))
  | Some id =>
      match deleteEstimate id this with
      | (this', false) => (this', respond 404 (Message "Estimate not found"))
      | (this', true) => (this', respond 204 NoBody)
      end
  end.

(** The record handed to [createEstimate] by the duplicate route: the
    original without its [id], with "-COPY" appended to the container
    identifier and the status "draft". *)
Definition duplicateData (original : Estimate Json) : InsertEstimate Json :=
  {| Insert.containerId := (Estimate.containerId original ++ "-COPY")%string;
     Insert.destination := Estimate.destination original;
     Insert.estimateDate := Estimate.estimateDate original;
     Insert.status := Some "draft"%string;
     Insert.products := Estimate.products original;
     Insert.transportCost := Some (Estimate.transportCost original);
     Insert.packingCost := Some (Estimate.packingCost original);
     Insert.fumigationCost := Some (Estimate.fumigationCost original);
     Insert.customsClearanceCost := Some (Estimate.customsClearanceCost original);
     Insert.exportDutyRate := Some (Estimate.exportDutyRate original);
     Insert.defaultMargin := Some (Estimate.defaultMargin original);
     Insert.freightCost := Some (Estimate.freightCost original);
     Insert.importDuty := Some (Estimate.importDuty original);
     Insert.destinationCustomsClearance :=
       Some (Estimate.destinationCustomsClearance original);
     Insert.destinationTransport := Some (Estimate.destinationTransport original);
     Insert.distributorMargin := Some (Estimate.distributorMargin original);
     Insert.retailerMargin := Some (Estimate.retailerMargin original);
     Insert.calculationResults := Estimate.calculationResults original;
     Insert.createdBy := Estimate.createdBy original;
     Insert.userRole := Estimate.userRole original |}.

(** POST /api/estimates/:id/duplicate *)
Definition duplicateRoute (idParam : string) (this : MemStorage Json)
  : MemStorage Json * Response Json Issues :=
  match parseInt idParam with
  | None => (this, respond 400 (Message "Invalid estimate ID"))
  | Some id =>
      match getEstimate id this with
      | None => (this, respond 404 (Message "Original estimate not found"))
      | Some original =>
          let (this', duplicated) := createEstimate (duplicateData original) this in
          (this', respond 201 (OneEstimate duplicated))
      end
  end.

(** The requests of the estimate routes, and a server taking them in turn. *)
Inductive Request : Type :=
| GetList
| GetByStatus (status : string)
| GetSearch (q : option string)
| GetOne (idParam : string)
| PostCreate (body : Body)
| Patch (idParam : string) (body : Body)
| DeleteOne (idParam : string)
| PostDuplicate (idParam : string).

Definition handle (request : Request) (this : MemStorage Json)
  : MemStorage Json * Response Json Issues :=
  match request with
  | GetList => listRoute this
  | GetByStatus status => statusRoute status this
  | GetSearch q => searchRoute q this
  | GetOne idParam => getRoute idParam this
  | PostCreate body => createRoute body this
  | Patch idParam body => patchRoute idParam body this
  | DeleteOne idParam => deleteRoute idParam this
  | PostDuplicate idParam => duplicateRoute idParam this
  end.

Fixpoint serve (requests : list Request) (this : MemStorage Json)
  : MemStorage Json * list (Response Json Issues) :=
  match requests with
  | [] => (this, [])
  | request :: rest =>
      let (this', response) := handle request this in
      let (final, responses) := serve rest this' in
      (final, response :: responses)
  end.

End Routes.

(** An update with no key, and the number of [Create] calls in a run. *)
Definition emptyUpdate (Json : Type) : UpdateEstimate Json :=
  {| Update.containerId := None;
     Update.destination := None;
     Update.estimateDate := None;
     Update.status := None;
     Update.products := None;
     Update.transportCost := None;
     Update.packingCost := None;
     Update.fumigationCost := None;
     Update.customsClearanceCost := None;
     Update.exportDutyRate := None;
     Update.defaultMargin := None;
     Update.freightCost := None;
     Update.importDuty := None;
     Update.destinationCustomsClearance := None;
     Update.destinationTransport := None;
     Update.distributorMargin := None;
     Update.retailerMargin := None;
     Update.calculationResults := None;
     Update.createdBy := None;
     Update.userRole := None |}.

(** What the spread of an update is to give for one column: the supplied
    value when the update has the key, the record's own value when not. *)
Definition replaced {A : Type} (x : option A) (old new : A) : Prop :=
  (forall v, x = Some v -> new = v) /\ (x = None -> new = old).

(** An update of status and destination only. *)
Definition archiveInOslo : UpdateEstimate unit :=
  {| Update.containerId := None;
     Update.destination := Some "Oslo"%string;
     Update.estimateDate := None;
     Update.status := Some "archived"%string;
     Update.products := None;
     Update.transportCost := None;
     Update.packingCost := None;
     Update.fumigationCost := None;
     Update.customsClearanceCost := None;
     Update.exportDutyRate := None;
     Update.defaultMargin := None;
     Update.freightCost := None;
     Update.importDuty := None;
     Update.destinationCustomsClearance := None;
     Update.destinationTransport := None;
     Update.distributorMargin := None;
     Update.retailerMargin := None;
     Update.calculationResults := None;
     Update.createdBy := None;
     Update.userRole := None |}.

Definition isCreate {Json : Type} (c : Call Json) : bool :=
  match c with
  | Create _ => true
  | _ => false
  end.

Definition creations {Json : Type} (calls : list (Call Json)) : nat :=
  List.length (filter isCreate calls).

(** A decimal parser standing for [parseInt] in the examples: it reads a
    string of digits and nothing else. *)
Fixpoint digitsValue (s : string) (acc : Z) : option Z :=
  match s with
  | EmptyString => Some acc
  | String c s' =>
      let n := nat_of_ascii c in
      if ((48 <=? n) && (n <=? 57))%nat
      then digitsValue s' (10 * acc + Z.of_nat (n - 48))%Z
      else None
  end.

Definition parseDigits (s : string) : option Z :=
  match s with
  | EmptyString => None
  | _ => digitsValue s 0%Z
  end.

(** * Properties of the pricing engine *)

(** ** Facts that hold for every numeric type *)

Section EngineFacts.

Context {num : Type} `{Number num}.

Lemma withProducts_products (input : CalculationInput num) :
  withProducts input (Input.products input) = input.
Proof. destruct input; reflexivity. Qed.

Lemma filter_isIncluded_skip (L : ProductLine num) (before after : list (ProductLine num)) :
  isIncluded L = false ->
  filter isIncluded (before ++ L :: after) = filter isIncluded (before ++ after).
Proof.
  intros HL. rewrite !filter_app. cbn [filter]. now rewrite HL.
Qed.

(** The result is a function of the filtered lines and of the cost fields:
    two product lists with the same filtered lines give the same result. *)
Lemma calculateEstimate_filtered_only (input : CalculationInput num)
  (ps ps' : list (ProductLine num)) :
  filter isIncluded ps = filter isIncluded ps' ->
  calculateEstimate (withProducts input ps) = calculateEstimate (withProducts input ps').
Proof.
  intros E.
  unfold calculateEstimate, productBreakdown, breakdownOf, totalMarginPercentage,
    retailerPrice, distributorPrice, importerTotalCost, totalLogisticsCost,
    otherLogisticsCosts, invoiceValue, exportDutyAmount, invoiceValueBeforeDuty,
    marginAmount, weightedMargin, totalProductValue, totalProcurementCost,
    otherCosts, rawMaterialsCost, includedProducts.
  cbn [withProducts Input.products Input.transportCost Input.packingCost
       Input.fumigationCost Input.customsClearanceCost Input.exportDutyRate
       Input.freightCost Input.importDuty Input.destinationCustomsClearance
       Input.destinationTransport Input.distributorMargin Input.retailerMargin].
  rewrite E. reflexivity.
Qed.

Lemma calculateEstimate_skip_line (input : CalculationInput num) (L : ProductLine num)
  (before after : list (ProductLine num)) :
  isIncluded L = false ->
  calculateEstimate (withProducts input (before ++ L :: after))
  = calculateEstimate (withProducts input (before ++ after)).
Proof.
  intros HL. apply calculateEstimate_filtered_only. now apply filter_isIncluded_skip.
Qed.

Lemma includedProducts_none (input : CalculationInput num) :
  Forall (fun p => isIncluded p = false) (Input.products input) ->
  includedProducts input = [].
Proof.
  unfold includedProducts. induction 1 as [|p ps Hp _ IH]; cbn [filter].
  - reflexivity.
  - now rewrite Hp.
Qed.

Lemma includedProducts_isIncluded (input : CalculationInput num) :
  Forall (fun p => isIncluded p = true) (includedProducts input).
Proof.
  apply Forall_forall. intros p Hp. unfold includedProducts in Hp.
  now apply filter_In in Hp.
Qed.

End EngineFacts.

(** ** Exact arithmetic *)

Ltac exact_ops :=
  cbv [add sub mul div gtb num0 num1 num100 Q_Number] in *.

Lemma gtb_Q_true (a b : Q) : gtb a b = true <-> b < a.
Proof.
  exact_ops. rewrite negb_true_iff. split.
  - intros E. apply Qnot_le_lt. intros Hle. apply Qle_bool_iff in Hle. congruence.
  - intros Hlt. destruct (Qle_bool a b) eqn:E; [|reflexivity].
    apply Qle_bool_iff in E. exfalso. exact (Qlt_not_le _ _ Hlt E).
Qed.

Lemma gtb_Q_false (a b : Q) : gtb a b = false <-> a <= b.
Proof.
  exact_ops. rewrite negb_false_iff. apply Qle_bool_iff.
Qed.

Lemma excluded_isIncluded (p : ProductLine Q) : excluded p <-> isIncluded p = false.
Proof.
  unfold excluded, isIncluded. rewrite andb_false_iff, gtb_Q_false. reflexivity.
Qed.

Lemma isIncluded_quantity_pos (p : ProductLine Q) :
  isIncluded p = true -> 0 < ProductLine.quantity p.
Proof.
  unfold isIncluded. rewrite andb_true_iff, gtb_Q_true. tauto.
Qed.

(** C6: a line with [included = false] or [quantity <= 0] is invisible:
    appending it to the product list, or removing it from wherever it
    stands in the list, leaves the whole result, breakdown included,
    identical. *)
Theorem excluded_line_invisible (input : CalculationInput Q) (L : ProductLine Q)
  (HL : excluded L) :
  calculateEstimate (withProducts input (Input.products input ++ [L]))
  = calculateEstimate input
  /\ (forall before after : list (ProductLine Q),
        Input.products input = before ++ L :: after ->
        calculateEstimate (withProducts input (before ++ after))
        = calculateEstimate input).
Proof.
  apply excluded_isIncluded in HL. split.
  - pose proof (calculateEstimate_skip_line input L (Input.products input) [] HL) as E.
    rewrite app_nil_r, withProducts_products in E. exact E.
  - intros before after E.
    pose proof (calculateEstimate_skip_line input L before after HL) as E'.
    rewrite <- E, withProducts_products in E'. now symmetry.
Qed.

(** Scenario A with a line marked as not included appended. *)
Lemma excluded_line_invisible_witness :
  excluded hiddenLine
  /\ calculateEstimate
       (withProducts scenarioA_exact (Input.products scenarioA_exact ++ [hiddenLine]))
     = calculateEstimate scenarioA_exact.
Proof.
  split.
  - left. reflexivity.
  - exact (proj1 (@excluded_line_invisible scenarioA_exact hiddenLine
                    (or_introl eq_refl))).
Defined.

(** C7: the total procurement cost of the result is the sum of its raw
    materials, transport, packing, fumigation and customs clearance costs:
    for every numeric type, binary64 included, it is that sum grouped as
    the code adds them, and in exact arithmetic it is the sum in any
    grouping. *)
Theorem totalProcurementCost_is_sum :
  (forall (num : Type) (N : Number num) (input : CalculationInput num),
      let r := calculateEstimate input in
      Results.totalProcurementCost r
      = (Results.rawMaterialsCost r + Results.transportCost r + Results.packingCost r
         + (Results.fumigationCost r + Results.customsClearanceCost r))%num)
  /\ (forall input : CalculationInput Q,
        let r := calculateEstimate input in
        Results.totalProcurementCost r
        == Results.rawMaterialsCost r + Results.transportCost r + Results.packingCost r
           + Results.fumigationCost r + Results.customsClearanceCost r).
Proof.
  split.
  - intros num N input. reflexivity.
  - intros input.
    cbn [calculateEstimate Results.totalProcurementCost Results.rawMaterialsCost
         Results.transportCost Results.packingCost Results.fumigationCost
         Results.customsClearanceCost].
    unfold totalProcurementCost, otherCosts. exact_ops. ring.
Qed.

(** C2: the invoice value reached through the margin amount, the pre-duty
    invoice value and the export duty amount is
    totalProcurementCost * (1 + weightedMargin/100) * (1 + exportDutyRate/100). *)
Theorem invoiceValue_closed_form (input : CalculationInput Q) :
  let r := calculateEstimate input in
  Results.marginAmount r
  == Results.totalProcurementCost r * (weightedMargin input / 100)
  /\ Results.exportDutyAmount r
     == (Results.totalProcurementCost r + Results.marginAmount r)
        * (Input.exportDutyRate input / 100)
  /\ Results.invoiceValue r
     == Results.totalProcurementCost r + Results.marginAmount r
        + Results.exportDutyAmount r
  /\ Results.invoiceValue r
     == Results.totalProcurementCost r * (1 + weightedMargin input / 100)
        * (1 + Input.exportDutyRate input / 100).
Proof.
  cbn [calculateEstimate Results.totalProcurementCost Results.marginAmount
       Results.exportDutyAmount Results.invoiceValue].
  unfold invoiceValue, exportDutyAmount, invoiceValueBeforeDuty, marginAmount.
  exact_ops.
  generalize (totalProcurementCost input) (weightedMargin input)
    (Input.exportDutyRate input).
  intros t w d. repeat split; try reflexivity. field.
Qed.

(** The closed form is an identity of exact arithmetic. binary64 rounds
    every operation, and there the two sides agree up to rounding only:
    for a procurement cost of 1234, a margin of 12 and a duty of 3 the
    staged value is 1423.5423999999998 and the closed form
    1423.5424000000003. *)
Example invoiceValue_closed_form_binary64_rounding :
  Results.invoiceValue (calculateEstimate dutyInput_binary64) = 0x1.63e2b6ae7d566p+10%float
  /\ invoiceClosedForm dutyInput_binary64 = 0x1.63e2b6ae7d568p+10%float.
Proof. split; vm_compute; reflexivity. Qed.

(** C3: scenario A, in exact arithmetic and as binary64 computes it: raw
    materials 1000, total procurement cost 1000, margin amount 150, invoice
    value, importer total cost, distributor price and retailer price all
    1150, and a per-unit invoice price of 115 for the one line. *)
Theorem scenario_A_results :
  (let r := calculateEstimate scenarioA_exact in
   Results.rawMaterialsCost r == 1000
   /\ Results.totalProcurementCost r == 1000
   /\ weightedMargin scenarioA_exact == 15
   /\ Results.marginAmount r == 150
   /\ Results.invoiceValue r == 1150
   /\ Results.importerTotalCost r == 1150
   /\ Results.distributorPrice r == 1150
   /\ Results.retailerPrice r == 1150
   /\ List.length (Results.productBreakdown r) = 1%nat
   /\ exists p, firstBreakdown Breakdown.invoicePrice r = Some p /\ p == 115)
  /\ (let r := calculateEstimate scenarioA_binary64 in
      Results.rawMaterialsCost r = 1000%float
      /\ Results.totalProcurementCost r = 1000%float
      /\ weightedMargin scenarioA_binary64 = 15%float
      /\ Results.marginAmount r = 150%float
      /\ Results.invoiceValue r = 1150%float
      /\ Results.importerTotalCost r = 1150%float
      /\ Results.distributorPrice r = 1150%float
      /\ Results.retailerPrice r = 1150%float
      /\ firstBreakdown Breakdown.invoicePrice r = Some 115%float).
Proof.
  split.
  - cbv zeta. repeat (split; [vm_compute; reflexivity|]).
    eexists. split; [reflexivity|]. vm_compute. reflexivity.
  - cbv zeta. repeat split; vm_compute; reflexivity.
Qed.

(** C5: when the product list is empty or every line is excluded, the raw
    materials cost, the weighted margin and the margin amount are 0 (no
    division takes place), the breakdown is empty, and the cost fields the
    result echoes are the ones supplied. *)
Theorem no_filtered_products (input : CalculationInput Q)
  (Hnone : Forall excluded (Input.products input)) :
  let r := calculateEstimate input in
  Results.rawMaterialsCost r = 0
  /\ weightedMargin input = 0
  /\ Results.marginAmount r == 0
  /\ Results.productBreakdown r = []
  /\ Results.transportCost r = Input.transportCost input
  /\ Results.packingCost r = Input.packingCost input
  /\ Results.fumigationCost r = Input.fumigationCost input
  /\ Results.customsClearanceCost r = Input.customsClearanceCost input
  /\ Results.freightCost r = Input.freightCost input
  /\ Results.importDutyCost r = Input.importDuty input
  /\ Results.destinationCustomsClearance r = Input.destinationCustomsClearance input
  /\ Results.destinationTransport r = Input.destinationTransport input.
Proof.
  assert (E : includedProducts input = []).
  { apply includedProducts_none. revert Hnone. apply Forall_impl.
    intros p. apply excluded_isIncluded. }
  assert (Ew : weightedMargin input = 0).
  { unfold weightedMargin, totalProductValue. rewrite E. reflexivity. }
  cbv zeta. repeat split.
  - cbn [calculateEstimate Results.rawMaterialsCost]. unfold rawMaterialsCost.
    rewrite E. reflexivity.
  - exact Ew.
  - cbn [calculateEstimate Results.marginAmount]. unfold marginAmount.
    rewrite Ew. exact_ops. field.
  - cbn [calculateEstimate Results.productBreakdown]. unfold productBreakdown.
    rewrite E. reflexivity.
Qed.

(** An input of one not-included line and one line of quantity 0. *)
Lemma no_filtered_products_witness :
  Forall excluded (Input.products allHidden)
  /\ Results.productBreakdown (calculateEstimate allHidden) = []
  /\ Results.transportCost (calculateEstimate allHidden) = 250.
Proof.
  assert (H : Forall excluded (Input.products allHidden)).
  { constructor; [left; reflexivity|].
    constructor; [right; apply Qle_refl | constructor]. }
  split; [exact H|].
  pose proof (no_filtered_products allHidden H) as R. cbv zeta in R.
  split; [exact (proj1 (proj2 (proj2 (proj2 R))))
         | exact (proj1 (proj2 (proj2 (proj2 (proj2 R)))))].
Defined.

(** *** Sums accumulated by [reduce] *)

Lemma fold_sum_acc {A : Type} (f : A -> Q) (l : list A) (a : Q) :
  fold_left (fun s x => s + f x) l a == a + sumOver f l.
Proof.
  unfold sumOver. revert a. induction l as [|x l IH]; intros a; cbn [fold_left].
  - ring.
  - rewrite (IH (a + f x)), (IH (0 + f x)). ring.
Qed.

Lemma sumOver_cons {A : Type} (f : A -> Q) (x : A) (l : list A) :
  sumOver f (x :: l) == f x + sumOver f l.
Proof.
  unfold sumOver at 1. cbn [fold_left]. rewrite fold_sum_acc. ring.
Qed.

Lemma sumOver_ext {A : Type} (f g : A -> Q) (l : list A) :
  Forall (fun x => f x == g x) l -> sumOver f l == sumOver g l.
Proof.
  induction 1 as [|x l Hx _ IH].
  - reflexivity.
  - rewrite !sumOver_cons, Hx, IH. reflexivity.
Qed.

Lemma sumOver_scale {A : Type} (c : Q) (f : A -> Q) (l : list A) :
  sumOver (fun x => c * f x) l == c * sumOver f l.
Proof.
  induction l as [|x l IH].
  - unfold sumOver. cbn [fold_left]. ring.
  - rewrite !sumOver_cons, IH. ring.
Qed.

Lemma fold_combine_map {A B : Type} (g : A -> B) (F : A * B -> Q) (l : list A) (a : Q) :
  fold_left (fun s pb => s + F pb) (combine l (map g l)) a
  = fold_left (fun s p => s + F (p, g p)) l a.
Proof.
  revert a. induction l as [|x l IH]; intros a; cbn [map combine fold_left].
  - reflexivity.
  - apply IH.
Qed.

Lemma totalProductValue_sumOver (input : CalculationInput Q) :
  totalProductValue input = sumOver lineValue (includedProducts input).
Proof. reflexivity. Qed.

Lemma weightedMargin_positive (input : CalculationInput Q) :
  0 < totalProductValue input ->
  weightedMargin input = shareWeightedMargin input.
Proof.
  intros Hpos. apply gtb_Q_true in Hpos. unfold weightedMargin.
  change (@num0 Q _) with 0 in *. rewrite Hpos. reflexivity.
Qed.

Lemma weightedMargin_not_positive (input : CalculationInput Q) :
  totalProductValue input <= 0 -> weightedMargin input = 0.
Proof.
  intros Hle. apply gtb_Q_false in Hle. unfold weightedMargin.
  change (@num0 Q _) with 0 in *. rewrite Hle. reflexivity.
Qed.

Lemma withinTolerance_eq (a b : Q) : a == b -> withinTolerance a b.
Proof.
  intros E. unfold withinTolerance.
  assert (Ez : Qabs (a - b) == 0).
  { rewrite E. setoid_replace (b - b) with 0 by ring. reflexivity. }
  rewrite Ez. apply Qmult_le_0_compat; [discriminate|].
  apply Qle_trans with (Qabs a); [apply Qabs_nonneg | apply Q.le_max_l].
Qed.

(** C4: where the total product value is positive, the weighted margin is
    the sum of margin times value share over the filtered lines, the shares
    add up to 1, and so it is the sum of margin times value divided by the
    total value; otherwise it is 0. For two lines worth 1000 each it is the
    mean of the two margins: 15 for margins 10 and 20, whichever line
    carries the higher one, also as binary64 computes it. *)
Theorem weightedMargin_value_share_average :
  (forall input : CalculationInput Q,
      0 < totalProductValue input ->
      weightedMargin input == shareWeightedMargin input
      /\ sumOver (valueShare input) (includedProducts input) == 1
      /\ weightedMargin input
         == sumOver (fun p => ProductLine.margin p * lineValue p) (includedProducts input)
            / sumOver lineValue (includedProducts input))
  /\ (forall input : CalculationInput Q,
        totalProductValue input <= 0 -> weightedMargin input == 0)
  /\ (forall m1 m2 : Q, weightedMargin (scenarioB_exact m1 m2) == (m1 + m2) / 2)
  /\ weightedMargin (scenarioB_exact 10 20) == 15
  /\ weightedMargin (scenarioB_exact 20 10) == 15
  /\ weightedMargin (scenarioB_binary64 10%float 20%float) = 15%float
  /\ weightedMargin (scenarioB_binary64 20%float 10%float) = 15%float.
Proof.
  assert (HB : forall m1 m2 : Q, weightedMargin (scenarioB_exact m1 m2) == (m1 + m2) / 2).
  { intros m1 m2.
    assert (Hpos : 0 < totalProductValue (scenarioB_exact m1 m2)) by reflexivity.
    rewrite (weightedMargin_positive _ Hpos).
    unfold shareWeightedMargin, valueShare.
    change (includedProducts (scenarioB_exact m1 m2))
      with [line "Basmati Rice" 10 100 m1; line "Red Lentils" 20 50 m2].
    change (totalProductValue (scenarioB_exact m1 m2)) with (0 + 10 * 100 + 20 * 50).
    unfold sumOver, lineValue. cbn [fold_left line ProductLine.margin
      ProductLine.quantity ProductLine.unitPrice]. field. }
  split; [|split; [|split; [exact HB|]]].
  - intros input Hpos.
    assert (Hne : ~ totalProductValue input == 0).
    { intros E. rewrite E in Hpos. discriminate. }
    assert (Hshare : forall g : ProductLine Q -> Q,
               sumOver (fun p => g p * valueShare input p) (includedProducts input)
               == sumOver (fun p => g p * lineValue p) (includedProducts input)
                  / totalProductValue input).
    { intros g.
      transitivity (sumOver (fun p => / totalProductValue input * (g p * lineValue p))
                            (includedProducts input)).
      - apply sumOver_ext, Forall_forall. intros p _. unfold valueShare. now field.
      - rewrite sumOver_scale. now field. }
    rewrite (weightedMargin_positive _ Hpos). split; [reflexivity|]. split.
    + transitivity (sumOver (fun p => 1 * valueShare input p) (includedProducts input)).
      * apply sumOver_ext, Forall_forall. intros p _. ring.
      * rewrite Hshare.
        transitivity (sumOver lineValue (includedProducts input) / totalProductValue input).
        -- apply Qmult_comp; [|reflexivity].
           apply sumOver_ext, Forall_forall. intros p _. ring.
        -- rewrite <- totalProductValue_sumOver. now field.
    + unfold shareWeightedMargin. rewrite Hshare.
      rewrite <- totalProductValue_sumOver. reflexivity.
  - intros input Hle. now rewrite weightedMargin_not_positive.
  - split; [|split; [|split]].
    + rewrite HB. reflexivity.
    + rewrite HB. reflexivity.
    + vm_compute. reflexivity.
    + vm_compute. reflexivity.
Qed.

(** Scenario B with margins 10 and 20: the shares add up to 1. *)
Lemma weightedMargin_value_share_average_witness :
  0 < totalProductValue (scenarioB_exact 10 20)
  /\ sumOver (valueShare (scenarioB_exact 10 20))
             (includedProducts (scenarioB_exact 10 20)) == 1.
Proof.
  assert (H : 0 < totalProductValue (scenarioB_exact 10 20)) by reflexivity.
  split; [exact H|].
  exact (proj1 (proj2 (proj1 weightedMargin_value_share_average
                             (scenarioB_exact 10 20) H))).
Defined.

(** *** Allocation *)

Lemma roundTrip_total (input : CalculationInput Q) (price : ProductBreakdown Q -> Q)
  (total : Q) :
  0 < totalProductValue input ->
  (forall p, price (breakdownOf input p)
             = total * (if gtb (totalProductValue input) 0
                        then lineValue p / totalProductValue input
                        else 0)
               / ProductLine.quantity p) ->
  roundTrip price input == total.
Proof.
  intros Hpos Hprice.
  assert (Hne : ~ totalProductValue input == 0).
  { intros E. rewrite E in Hpos. discriminate. }
  unfold roundTrip, sumOver.
  cbn [calculateEstimate Results.productBreakdown]. unfold productBreakdown.
  rewrite fold_combine_map. cbn [fst snd].
  change (sumOver (fun p => price (breakdownOf input p) * ProductLine.quantity p)
                  (includedProducts input) == total).
  transitivity (sumOver (fun p => total / totalProductValue input * lineValue p)
                        (includedProducts input)).
  - apply sumOver_ext.
    generalize (includedProducts_isIncluded input). apply Forall_impl.
    intros p Hp. apply isIncluded_quantity_pos in Hp.
    assert (Hq : ~ ProductLine.quantity p == 0).
    { intros E. rewrite E in Hp. discriminate. }
    rewrite Hprice. apply gtb_Q_true in Hpos. rewrite Hpos. now field.
  - rewrite sumOver_scale, <- totalProductValue_sumOver. now field.
Qed.

(** C1, as the code has it: where the total product value is positive, the
    per-unit invoice, distributor and retailer prices of the breakdown,
    each times its line's quantity and summed over the filtered lines, give
    back the blended invoice value, distributor price and retailer price,
    exactly and so within the relative tolerance of 1e-6. *)
Theorem allocation_round_trip (input : CalculationInput Q)
  (Hpos : 0 < totalProductValue input) :
  let r := calculateEstimate input in
  roundTrip Breakdown.invoicePrice input == Results.invoiceValue r
  /\ roundTrip Breakdown.distributorPrice input == Results.distributorPrice r
  /\ roundTrip Breakdown.retailerPrice input == Results.retailerPrice r
  /\ withinTolerance (roundTrip Breakdown.invoicePrice input) (Results.invoiceValue r)
  /\ withinTolerance (roundTrip Breakdown.distributorPrice input)
                     (Results.distributorPrice r)
  /\ withinTolerance (roundTrip Breakdown.retailerPrice input) (Results.retailerPrice r).
Proof.
  cbv zeta.
  assert (Hi : roundTrip Breakdown.invoicePrice input
               == Results.invoiceValue (calculateEstimate input)).
  { apply roundTrip_total; [exact Hpos | intros p; reflexivity]. }
  assert (Hd : roundTrip Breakdown.distributorPrice input
               == Results.distributorPrice (calculateEstimate input)).
  { apply roundTrip_total; [exact Hpos | intros p; reflexivity]. }
  assert (Hr : roundTrip Breakdown.retailerPrice input
               == Results.retailerPrice (calculateEstimate input)).
  { apply roundTrip_total; [exact Hpos | intros p; reflexivity]. }
  repeat split; try assumption; now apply withinTolerance_eq.
Qed.

(** Scenario B with margins 10 and 20: the invoice prices sum back. *)
Lemma allocation_round_trip_witness :
  0 < totalProductValue (scenarioB_exact 10 20)
  /\ roundTrip Breakdown.invoicePrice (scenarioB_exact 10 20)
     == Results.invoiceValue (calculateEstimate (scenarioB_exact 10 20)).
Proof.
  assert (H : 0 < totalProductValue (scenarioB_exact 10 20)) by reflexivity.
  split; [exact H|].
  exact (proj1 (allocation_round_trip (scenarioB_exact 10 20) H)).
Defined.

(** C1 as stated fails: a single included line of quantity 1 and unit price
    0 is a filtered product, the transport cost of 100 makes the invoice
    value 100, and the one allocated per-unit price is 0, in exact
    arithmetic and in binary64 alike. *)
Lemma round_trip_fails_without_product_value :
  includedProducts freeLine_exact = [line "Basmati Rice" 1 0 0]
  /\ roundTrip Breakdown.invoicePrice freeLine_exact == 0
  /\ Results.invoiceValue (calculateEstimate freeLine_exact) == 100
  /\ ~ withinTolerance (roundTrip Breakdown.invoicePrice freeLine_exact)
                       (Results.invoiceValue (calculateEstimate freeLine_exact))
  /\ ~ withinTolerance (roundTrip Breakdown.distributorPrice freeLine_exact)
                       (Results.distributorPrice (calculateEstimate freeLine_exact))
  /\ ~ withinTolerance (roundTrip Breakdown.retailerPrice freeLine_exact)
                       (Results.retailerPrice (calculateEstimate freeLine_exact))
  /\ map Breakdown.invoicePrice
         (Results.productBreakdown (calculateEstimate freeLine_binary64))
     = [0%float]
  /\ Results.invoiceValue (calculateEstimate freeLine_binary64) = 100%float.
Proof.
  split; [reflexivity|].
  split; [vm_compute; reflexivity|].
  split; [vm_compute; reflexivity|].
  split; [intros T; vm_compute in T; apply T; reflexivity|].
  split; [intros T; vm_compute in T; apply T; reflexivity|].
  split; [intros T; vm_compute in T; apply T; reflexivity|].
  split; vm_compute; reflexivity.
Qed.

(** *** Divisions *)

Lemma safeDiv_nonzero (a b : Q) : ~ b == 0 -> safeDiv a b = Some (a / b).
Proof.
  intros Hb. unfold safeDiv. destruct (Qeq_bool b 0) eqn:E; [|reflexivity].
  apply Qeq_bool_iff in E. contradiction.
Qed.

Lemma safeDiv_positive (a b : Q) : 0 < b -> safeDiv a b = Some (a / b).
Proof.
  intros Hb. apply safeDiv_nonzero. intros E. rewrite E in Hb. discriminate.
Qed.

Lemma foldM_total {A B : Type} (f : A -> B -> option A) (g : A -> B -> A) (l : list B) :
  (forall a x, In x l -> f a x = Some (g a x)) ->
  forall a, foldM f l a = Some (fold_left g l a).
Proof.
  induction l as [|x l IH]; intros Hf a; cbn [foldM fold_left].
  - reflexivity.
  - rewrite Hf by (left; reflexivity). cbn [bind].
    apply IH. intros a' y Hy. apply Hf. now right.
Qed.

Lemma mapM_total {A B : Type} (f : A -> option B) (g : A -> B) (l : list A) :
  (forall x, In x l -> f x = Some (g x)) -> mapM f l = Some (map g l).
Proof.
  induction l as [|x l IH]; intros Hf; cbn [mapM map].
  - reflexivity.
  - rewrite Hf by (left; reflexivity). cbn [bind].
    rewrite IH by (intros y Hy; apply Hf; now right). reflexivity.
Qed.

(** C8: [calculateEstimate] is defined on every input, and no division it
    evaluates has a zero divisor: read with a division that fails on zero,
    it still returns, and returns the same result. *)
Theorem calculateEstimate_total (input : CalculationInput Q) :
  calculateEstimate_checked input = Some (calculateEstimate input).
Proof.
  unfold calculateEstimate_checked. cbv zeta.
  change (filter isIncluded (Input.products input)) with (includedProducts input).
  change (fold_left (fun sum product =>
                       sum + ProductLine.quantity product * ProductLine.unitPrice product)
                    (includedProducts input) 0)
    with (totalProductValue input).
  assert (Hw : (if negb (Qle_bool (totalProductValue input) 0)
                then foldM (fun sum product =>
                              weight <- safeDiv (ProductLine.quantity product
                                                 * ProductLine.unitPrice product)
                                                (totalProductValue input) ;;
                              Some (sum + ProductLine.margin product * weight))
                           (includedProducts input) 0
                else Some 0)
               = Some (weightedMargin input)).
  { unfold weightedMargin.
    change (gtb (totalProductValue input) num0)
      with (negb (Qle_bool (totalProductValue input) 0)).
    destruct (negb (Qle_bool (totalProductValue input) 0)) eqn:E; [|reflexivity].
    apply (proj1 (gtb_Q_true _ _)) in E.
    apply foldM_total. intros a p _.
    rewrite (safeDiv_positive _ E). reflexivity. }
  rewrite Hw. cbn [bind].
  change (safeDiv (weightedMargin input) 100) with (Some (weightedMargin input / 100)).
  change (safeDiv (Input.exportDutyRate input) 100)
    with (Some (Input.exportDutyRate input / 100)).
  change (safeDiv (Input.distributorMargin input) 100)
    with (Some (Input.distributorMargin input / 100)).
  change (safeDiv (Input.retailerMargin input) 100)
    with (Some (Input.retailerMargin input / 100)).
  cbn [bind].
  change (totalProductValue input + Input.transportCost input + Input.packingCost input
          + (Input.fumigationCost input + Input.customsClearanceCost input))
    with (totalProcurementCost input).
  match goal with
  | |- bind ?c _ = _ =>
      assert (Hp : c = Some (totalMarginPercentage input))
  end.
  { unfold totalMarginPercentage.
    change (gtb (totalProcurementCost input) num0)
      with (negb (Qle_bool (totalProcurementCost input) 0)).
    destruct (negb (Qle_bool (totalProcurementCost input) 0)) eqn:E; [|reflexivity].
    apply (proj1 (gtb_Q_true _ _)) in E.
    rewrite (safeDiv_positive _ E). reflexivity. }
  rewrite Hp. cbn [bind].
  match goal with
  | |- bind (mapM ?f _) _ = _ =>
      assert (Hb : mapM f (includedProducts input)
                   = Some (map (breakdownOf input) (includedProducts input)))
  end.
  { apply mapM_total. intros p Hp'.
    assert (Hq : 0 < ProductLine.quantity p).
    { apply isIncluded_quantity_pos.
      pose proof (includedProducts_isIncluded input) as HF.
      rewrite Forall_forall in HF. now apply HF. }
    unfold breakdownOf. cbv zeta.
    change (gtb (totalProductValue input) num0)
      with (negb (Qle_bool (totalProductValue input) 0)).
    destruct (negb (Qle_bool (totalProductValue input) 0)) eqn:E.
    - apply (proj1 (gtb_Q_true _ _)) in E.
      rewrite (safeDiv_positive _ E). cbn [bind].
      rewrite !(safeDiv_positive _ Hq). reflexivity.
    - cbn [bind]. rewrite !(safeDiv_positive _ Hq). reflexivity. }
  rewrite Hb. cbn [bind]. reflexivity.
Qed.

(** * Properties of the estimate store *)

(** ** Sorting *)

Section SortFacts.

Variable A : Type.
Variable cmp : A -> A -> Z.

Lemma insertSorted_Permutation (x : A) (l : list A) :
  Permutation (insertSorted cmp x l) (x :: l).
Proof.
  induction l as [|y l IH]; cbn [insertSorted].
  - apply Permutation_refl.
  - destruct (cmp x y <=? 0)%Z.
    + apply Permutation_refl.
    + apply perm_trans with (y :: x :: l).
      * now apply perm_skip.
      * apply perm_swap.
Qed.

Lemma Array_sort_Permutation (l : list A) : Permutation (Array_sort cmp l) l.
Proof.
  induction l as [|x l IH]; cbn [Array_sort fold_right].
  - apply perm_nil.
  - apply perm_trans with (x :: Array_sort cmp l).
    + apply insertSorted_Permutation.
    + now apply perm_skip.
Qed.

Lemma Array_sort_In (l : list A) (x : A) : In x (Array_sort cmp l) <-> In x l.
Proof.
  split; apply Permutation_in.
  - apply Array_sort_Permutation.
  - apply Permutation_sym, Array_sort_Permutation.
Qed.

End SortFacts.

Section StoreFacts.

Variable Json : Type.

Lemma insertSorted_descending (x : Estimate Json) (l : list (Estimate Json)) :
  descendingById l -> descendingById (insertSorted (@byIdDescending Json) x l).
Proof.
  unfold descendingById.
  induction l as [|y l IH]; intros Hs; cbn [insertSorted].
  - constructor; constructor.
  - apply StronglySorted_inv in Hs. destruct Hs as [Hl Hy].
    unfold byIdDescending at 1.
    destruct (Estimate.id y - Estimate.id x <=? 0)%Z eqn:E.
    + apply Z.leb_le in E. constructor.
      * now constructor.
      * constructor; [lia|].
        revert Hy. apply Forall_impl. intros b Hb. lia.
    + apply Z.leb_gt in E. constructor.
      * now apply IH.
      * apply (Permutation_Forall
                 (Permutation_sym (insertSorted_Permutation (@byIdDescending Json) x l))).
        constructor; [lia | exact Hy].
Qed.

Lemma Array_sort_descending (l : list (Estimate Json)) :
  descendingById (Array_sort (@byIdDescending Json) l).
Proof.
  induction l as [|x l IH]; cbn [Array_sort fold_right].
  - constructor.
  - now apply insertSorted_descending.
Qed.

End StoreFacts.

(** ** Strings *)



(** ** Ignoring case on ASCII text *)









(** ** Listing, filtering and searching *)

Section Queries.

Variable Json : Type.
Context {L : LowerCase}.

Lemma sorted_filter_exact (keep : Estimate Json -> bool) (l : list (Estimate Json)) :
  Permutation (Array_sort (@byIdDescending Json) (filter keep l)) (filter keep l)
  /\ descendingById (Array_sort (@byIdDescending Json) (filter keep l))
  /\ (forall e, In e (Array_sort (@byIdDescending Json) (filter keep l))
                <-> In e l /\ keep e = true).
Proof.
  split; [apply Array_sort_Permutation|].
  split; [apply Array_sort_descending|].
  intros e. rewrite Array_sort_In. apply filter_In.
Qed.


End Queries.


Example sampleStore_listing :
  map (@Estimate.id unit) (getAllEstimates sampleStore) = [4; 3; 2]%Z
  /\ map (@Estimate.id unit) (getEstimatesByStatus "completed" sampleStore) = [3; 2]%Z
  /\ map (@Estimate.id unit) (getEstimatesByStatus "draft" sampleStore) = [4]%Z
  /\ map (@Estimate.id unit) (@searchEstimates unit asciiOnly "Hamburg" sampleStore)
     = [4; 3]%Z
  /\ map (@Estimate.id unit) (@searchEstimates unit asciiOnly "cnt-00" sampleStore)
     = [4; 2]%Z.
Proof. repeat split; reflexivity. Qed.

Example Array_sort_is_stable :
  Array_sort (fun a b : Z * string => (fst b - fst a)%Z)
             [(1, "a"); (2, "b"); (1, "c"); (2, "d")]%Z%string
  = [(2, "b"); (2, "d"); (1, "a"); (1, "c")]%Z%string.
Proof. reflexivity. Qed.

(** ** Creating records *)

Section MapFacts.

Variable V : Type.

Lemma map_get_set_same (k : Z) (v : V) (m : JsMap V) :
  map_get k (map_set k v m) = Some v.
Proof.
  induction m as [|[k' v'] m IH]; cbn [map_set map_get].
  - now rewrite Z.eqb_refl.
  - destruct (k =? k')%Z eqn:E; cbn [map_get].
    + now rewrite Z.eqb_refl.
    + rewrite E. exact IH.
Qed.

Lemma map_keys_set (P : Z -> Prop) (k : Z) (v : V) (m : JsMap V) :
  P k -> Forall P (map_keys m) -> Forall P (map_keys (map_set k v m)).
Proof.
  intros Hk. unfold map_keys.
  induction m as [|[k' v'] m IH]; cbn [map_set map]; intros Hm.
  - now constructor.
  - apply Forall_inv_tail in Hm as Ht. apply Forall_inv in Hm.
    destruct (k =? k')%Z; cbn [map fst]; constructor; auto.
Qed.

Lemma map_keys_delete (P : Z -> Prop) (k : Z) (m : JsMap V) :
  Forall P (map_keys m) -> Forall P (map_keys (snd (map_delete k m))).
Proof.
  unfold map_keys.
  induction m as [|[k' v'] m IH]; cbn [map_delete map]; intros Hm.
  - constructor.
  - apply Forall_inv_tail in Hm as Ht. apply Forall_inv in Hm.
    destruct (k =? k')%Z; cbn [snd]; [exact Ht|].
    destruct (map_delete k m) as [found rest]. cbn [snd map fst] in *.
    constructor; auto.
Qed.

End MapFacts.

Section Creation.

Variable Json : Type.

Lemma orDefault_defaulted (x : option string) (d : string) :
  defaulted x d (orDefault x d).
Proof.
  unfold defaulted, orDefault. split.
  - intros [-> | ->]; reflexivity.
  - intros s -> Hs. apply String.eqb_neq in Hs. now rewrite Hs.
Qed.

Lemma perform_keeps_order (this : MemStorage Json) (c : Call Json) :
  keysBelowNext this ->
  keysBelowNext (fst (perform this c))
  /\ (currentId this <= currentId (fst (perform this c)))%Z
  /\ Forall (fun i => (currentId this <= i < currentId (fst (perform this c)))%Z)
            (snd (perform this c)).
Proof.
  unfold keysBelowNext. intros Hk. destruct c as [ins | id u | id].
  - cbn [perform createEstimate fst snd estimates currentId Estimate.id].
    split; [|split].
    + apply map_keys_set; [lia|]. revert Hk. apply Forall_impl. intros k Hlt. lia.
    + lia.
    + constructor; [lia | constructor].
  - cbn [perform fst snd]. unfold updateEstimate.
    destruct (map_get id (estimates this)) as [existing|] eqn:E;
      cbn [fst estimates currentId]; (split; [|split; [lia | constructor]]).
    + apply map_keys_set; [|exact Hk].
      clear - E Hk. unfold map_keys in Hk.
      induction (estimates this) as [|[k' v'] m IH]; cbn [map_get] in E; [discriminate|].
      apply Forall_inv_tail in Hk as Ht. apply Forall_inv in Hk. cbn [fst] in Hk.
      destruct (id =? k')%Z eqn:Ek; [apply Z.eqb_eq in Ek; now subst | auto].
    + exact Hk.
  - cbn [perform fst snd]. unfold deleteEstimate.
    pose proof (@map_keys_delete _ _ id _ Hk) as Hd.
    destruct (map_delete id (estimates this)) as [found rest].
    cbn [fst snd estimates currentId] in *.
    split; [exact Hd | split; [lia | constructor]].
Qed.

Lemma run_keeps_order (calls : list (Call Json)) (this : MemStorage Json) :
  keysBelowNext this ->
  keysBelowNext (fst (run calls this))
  /\ (currentId this <= currentId (fst (run calls this)))%Z
  /\ Forall (fun i => (currentId this <= i < currentId (fst (run calls this)))%Z)
            (snd (run calls this)).
Proof.
  revert this. induction calls as [|c calls IH]; intros this Hk; cbn [run].
  - cbn [fst snd]. split; [exact Hk | split; [lia | constructor]].
  - destruct (perform_keeps_order c Hk) as [Hk1 [Hle1 Ha1]].
    destruct (perform this c) as [this1 assigned]. cbn [fst snd] in *.
    destruct (IH this1 Hk1) as [Hk2 [Hle2 Ha2]].
    destruct (run calls this1) as [final later]. cbn [fst snd] in *.
    split; [exact Hk2 | split; [lia|]].
    apply Forall_app. split.
    + revert Ha1. apply Forall_impl. intros i Hi. lia.
    + revert Ha2. apply Forall_impl. intros i Hi. lia.
Qed.

(** C10: [createEstimate] stores, under the next identifier, a record whose
    status and decimal columns are the supplied values where these are
    present and not empty, and otherwise "draft", "0", "15" (default
    margin), "12" (distributor margin) and "20" (retailer margin); the
    other columns are copied. After any sequence of calls on a new store,
    that identifier is greater than every identifier handed out before and
    than every key in the store. *)
Theorem createEstimate_defaults_and_fresh_id
  (this : MemStorage Json) (ins : InsertEstimate Json) :
  let e := snd (createEstimate ins this) in
  let this' := fst (createEstimate ins this) in
  (defaulted (Insert.status ins) "draft" (Estimate.status e)
   /\ defaulted (Insert.transportCost ins) "0" (Estimate.transportCost e)
   /\ defaulted (Insert.packingCost ins) "0" (Estimate.packingCost e)
   /\ defaulted (Insert.fumigationCost ins) "0" (Estimate.fumigationCost e)
   /\ defaulted (Insert.customsClearanceCost ins) "0" (Estimate.customsClearanceCost e)
   /\ defaulted (Insert.exportDutyRate ins) "0" (Estimate.exportDutyRate e)
   /\ defaulted (Insert.freightCost ins) "0" (Estimate.freightCost e)
   /\ defaulted (Insert.importDuty ins) "0" (Estimate.importDuty e)
   /\ defaulted (Insert.destinationCustomsClearance ins) "0"
                (Estimate.destinationCustomsClearance e)
   /\ defaulted (Insert.destinationTransport ins) "0" (Estimate.destinationTransport e)
   /\ defaulted (Insert.defaultMargin ins) "15" (Estimate.defaultMargin e)
   /\ defaulted (Insert.distributorMargin ins) "12" (Estimate.distributorMargin e)
   /\ defaulted (Insert.retailerMargin ins) "20" (Estimate.retailerMargin e))
  /\ (Estimate.containerId e = Insert.containerId ins
      /\ Estimate.destination e = Insert.destination ins
      /\ Estimate.estimateDate e = Insert.estimateDate ins
      /\ Estimate.products e = Insert.products ins
      /\ Estimate.calculationResults e = Insert.calculationResults ins
      /\ Estimate.createdBy e = Insert.createdBy ins
      /\ Estimate.userRole e = Insert.userRole ins)
  /\ (Estimate.id e = currentId this
      /\ currentId this' = (Estimate.id e + 1)%Z
      /\ getEstimate (Estimate.id e) this' = Some e)
  /\ (forall calls : list (Call Json),
        this = fst (run calls (constructor Json)) ->
        Forall (fun i => (i < Estimate.id e)%Z) (snd (run calls (constructor Json)))
        /\ Forall (fun k => (k < Estimate.id e)%Z) (map_keys (estimates this))).
Proof.
  cbv zeta.
  cbn [createEstimate fst snd Estimate.id Estimate.status Estimate.transportCost
       Estimate.packingCost Estimate.fumigationCost Estimate.customsClearanceCost
       Estimate.exportDutyRate Estimate.freightCost Estimate.importDuty
       Estimate.destinationCustomsClearance Estimate.destinationTransport
       Estimate.defaultMargin Estimate.distributorMargin Estimate.retailerMargin
       Estimate.containerId Estimate.destination Estimate.estimateDate
       Estimate.products Estimate.calculationResults Estimate.createdBy
       Estimate.userRole currentId].
  split; [repeat split; apply orDefault_defaulted|].
  split; [repeat split|].
  split.
  - split; [reflexivity|]. split; [reflexivity|].
    unfold getEstimate. cbn [estimates]. apply map_get_set_same.
  - intros calls ->.
    assert (H0 : keysBelowNext (constructor Json)) by constructor.
    destruct (run_keeps_order calls H0) as [Hk [_ Ha]].
    split.
    + revert Ha. apply Forall_impl. intros i Hi. lia.
    + exact Hk.
Qed.

End Creation.

(** A fifth record created on the sample store. *)
Lemma createEstimate_defaults_and_fresh_id_witness :
  sampleStore = fst (run sampleCalls (constructor unit))
  /\ Forall (fun i =>
               (i < Estimate.id
                      (snd (createEstimate (sampleInsert "CNT-005" "Oslo" None)
                                           sampleStore)))%Z)
            (snd (run sampleCalls (constructor unit))).
Proof.
  split; [reflexivity|].
  exact (proj1 (proj2 (proj2 (proj2
           (createEstimate_defaults_and_fresh_id
              sampleStore (sampleInsert "CNT-005" "Oslo" None))))
           sampleCalls eq_refl)).
Defined.

Example sampleStore_identifiers :
  snd (run sampleCalls (constructor unit)) = [1; 2; 3; 4]%Z
  /\ map_keys (estimates sampleStore) = [2; 3; 4]%Z
  /\ Estimate.id (snd (createEstimate (sampleInsert "CNT-005" "Oslo" None) sampleStore))
     = 5%Z
  /\ option_map (fun e : Estimate unit =>
                   (Estimate.status e, Estimate.transportCost e,
                    Estimate.fumigationCost e, Estimate.defaultMargin e,
                    Estimate.distributorMargin e, Estimate.retailerMargin e))
                (getEstimate 4 sampleStore)
     = Some ("draft", "120.50", "0", "15", "12", "25")%string.
Proof. repeat split; reflexivity. Qed.

(** ** Stores reached by calls

    On a store reached from a new one every record sits under its own
    identifier, so identifiers are pairwise distinct and the descending
    arrangement of the records is unique: the listings do not depend on how
    [sort] breaks ties. *)

Section MapInvariants.

Variable V : Type.

Lemma map_get_In (k : Z) (v : V) (m : JsMap V) : map_get k m = Some v -> In (k, v) m.
Proof.
  induction m as [|[k' v'] m IH]; cbn [map_get]; [discriminate|].
  destruct (k =? k')%Z eqn:E.
  - apply Z.eqb_eq in E. intros [= ->]. subst. now left.
  - intros Hm. right. now apply IH.
Qed.

Lemma map_set_NoDup (k : Z) (v : V) (m : JsMap V) :
  NoDup (map_keys m) -> NoDup (map_keys (map_set k v m)).
Proof.
  induction m as [|[k' v'] m IH]; cbn [map_set]; intros Hn.
  - repeat constructor. intros [].
  - unfold map_keys in Hn. cbn [map fst] in Hn. apply NoDup_cons_iff in Hn.
    destruct Hn as [Hk' Hm].
    destruct (k =? k')%Z eqn:E.
    + apply Z.eqb_eq in E. subst k'. unfold map_keys. cbn [map fst].
      now constructor.
    + apply Z.eqb_neq in E. unfold map_keys. cbn [map fst]. constructor.
      * assert (HF : Forall (fun x => x <> k') (map_keys (map_set k v m))).
        { apply map_keys_set; [exact E|].
          apply Forall_forall. intros x Hx ->. exact (Hk' Hx). }
        rewrite Forall_forall in HF. intros Hin. exact (HF _ Hin eq_refl).
      * now apply IH.
Qed.

Lemma map_set_Forall (P : Z * V -> Prop) (k : Z) (v : V) (m : JsMap V) :
  P (k, v) -> Forall P m -> Forall P (map_set k v m).
Proof.
  intros Hkv. induction m as [|[k' v'] m IH]; cbn [map_set]; intros Hm.
  - now constructor.
  - apply Forall_inv_tail in Hm as Ht. apply Forall_inv in Hm.
    destruct (k =? k')%Z; constructor; auto.
Qed.

Lemma map_delete_Forall (P : Z * V -> Prop) (k : Z) (m : JsMap V) :
  Forall P m -> Forall P (snd (map_delete k m)).
Proof.
  induction m as [|[k' v'] m IH]; cbn [map_delete]; intros Hm.
  - constructor.
  - apply Forall_inv_tail in Hm as Ht. apply Forall_inv in Hm.
    destruct (k =? k')%Z; cbn [snd]; [exact Ht|].
    destruct (map_delete k m) as [found rest]. cbn [snd] in *.
    constructor; auto.
Qed.

Lemma map_delete_NoDup (k : Z) (m : JsMap V) :
  NoDup (map_keys m) -> NoDup (map_keys (snd (map_delete k m))).
Proof.
  induction m as [|[k' v'] m IH]; cbn [map_delete]; intros Hn.
  - constructor.
  - unfold map_keys in Hn. cbn [map fst] in Hn. apply NoDup_cons_iff in Hn.
    destruct Hn as [Hk' Hm].
    destruct (k =? k')%Z; cbn [snd]; [exact Hm|].
    pose proof (@map_keys_delete V (fun x => x <> k') k m) as HF.
    specialize (IH Hm).
    destruct (map_delete k m) as [found rest]. cbn [snd] in *.
    unfold map_keys. cbn [map fst]. constructor; [|exact IH].
    assert (HF' : Forall (fun x => x <> k') (map_keys rest)).
    { apply HF. apply Forall_forall. intros x Hx ->. exact (Hk' Hx). }
    rewrite Forall_forall in HF'. intros Hin. exact (HF' _ Hin eq_refl).
Qed.

End MapInvariants.

Section Reachable.

Variable Json : Type.

Lemma perform_keeps_ownIds (this : MemStorage Json) (c : Call Json) :
  keysBelowNext this -> ownIds this -> ownIds (fst (perform this c)).
Proof.
  unfold ownIds, keysBelowNext. intros Hk [Hn Hi]. destruct c as [ins | id u | id].
  - cbn [perform createEstimate fst estimates]. split.
    + now apply map_set_NoDup.
    + now apply map_set_Forall.
  - cbn [perform fst]. unfold updateEstimate.
    destruct (map_get id (estimates this)) as [existing|] eqn:E;
      cbn [fst estimates]; [|now split].
    split; [now apply map_set_NoDup|].
    apply map_set_Forall; [|exact Hi].
    apply map_get_In in E. rewrite Forall_forall in Hi. exact (Hi _ E).
  - cbn [perform fst]. unfold deleteEstimate.
    pose proof (@map_delete_NoDup _ id _ Hn) as Hn'.
    pose proof (@map_delete_Forall _ _ id _ Hi) as Hi'.
    destruct (map_delete id (estimates this)) as [found rest].
    cbn [fst snd estimates] in *. now split.
Qed.

Lemma reachable_ownIds (this : MemStorage Json) : reachable this -> ownIds this.
Proof.
  intros [calls ->].
  assert (G : forall (cs : list (Call Json)) (st : MemStorage Json),
             keysBelowNext st -> ownIds st -> ownIds (fst (run cs st))).
  { induction cs as [|c cs IH]; intros st Hk Ho; cbn [run].
    - exact Ho.
    - pose proof (perform_keeps_order c Hk) as [Hk1 _].
      pose proof (perform_keeps_ownIds c Hk Ho) as Ho1.
      destruct (perform st c) as [st1 assigned]. cbn [fst] in *.
      specialize (IH st1 Hk1 Ho1).
      destruct (run cs st1) as [final later]. exact IH. }
  apply G.
  - constructor.
  - split; constructor.
Qed.

Lemma reachable_distinct_ids (this : MemStorage Json) :
  reachable this -> NoDup (map (@Estimate.id Json) (map_values (estimates this))).
Proof.
  intros Hr. destruct (reachable_ownIds Hr) as [Hn Hi].
  unfold map_values, map_keys in *. rewrite map_map.
  erewrite map_ext_in; [exact Hn|].
  intros kv Hkv. rewrite Forall_forall in Hi. now apply Hi.
Qed.

Lemma descending_unique (l1 l2 : list (Estimate Json)) :
  NoDup (map (@Estimate.id Json) l1) ->
  Permutation l1 l2 -> descendingById l1 -> descendingById l2 -> l1 = l2.
Proof.
  unfold descendingById. revert l2.
  induction l1 as [|a l1 IH]; intros l2 Hn Hp H1 H2.
  - apply Permutation_nil in Hp. now subst.
  - destruct l2 as [|b l2].
    { apply Permutation_sym, Permutation_nil in Hp. discriminate. }
    cbn [map] in Hn. apply NoDup_cons_iff in Hn. destruct Hn as [Ha Hn].
    apply StronglySorted_inv in H1. destruct H1 as [H1 Hall1].
    apply StronglySorted_inv in H2. destruct H2 as [H2 Hall2].
    rewrite Forall_forall in Hall1, Hall2.
    assert (E : a = b).
    { assert (Hb : In b (a :: l1)).
      { apply (Permutation_in b (Permutation_sym Hp)). now left. }
      destruct Hb as [Hb | Hb]; [exact Hb|].
      assert (Ha2 : In a (b :: l2)).
      { apply (Permutation_in a Hp). now left. }
      destruct Ha2 as [Ha2 | Ha2]; [now symmetry|].
      exfalso. apply Ha.
      assert (Eid : Estimate.id a = Estimate.id b).
      { pose proof (Hall1 _ Hb). pose proof (Hall2 _ Ha2). lia. }
      rewrite Eid. now apply in_map. }
    subst b. f_equal. apply IH; auto.
    now apply Permutation_cons_inv in Hp.
Qed.

(** X16: on a store reached by calls from a new one, any arrangement of
    the stored records by descending identifier is the list
    [getAllEstimates] returns: the listing does not depend on how the sort
    orders records the comparator does not separate. *)
Lemma getAllEstimates_unique (this : MemStorage Json) (l : list (Estimate Json)) :
  reachable this ->
  Permutation l (map_values (estimates this)) -> descendingById l ->
  l = getAllEstimates this.
Proof.
  intros Hr Hp Hs. symmetry. apply descending_unique.
  - apply (Permutation_NoDup
             (Permutation_map _ (Permutation_sym
                (Array_sort_Permutation (@byIdDescending Json)
                   (map_values (estimates this)))))).
    now apply reachable_distinct_ids.
  - apply perm_trans with (map_values (estimates this)).
    + apply Array_sort_Permutation.
    + now apply Permutation_sym.
  - apply Array_sort_descending.
  - exact Hs.
Qed.

End Reachable.

(** The sample store's listing, reversed twice, is such an arrangement. *)
Lemma getAllEstimates_unique_witness :
  reachable sampleStore
  /\ rev (rev (getAllEstimates sampleStore)) = getAllEstimates sampleStore.
Proof.
  assert (H : reachable sampleStore) by (exists sampleCalls; reflexivity).
  split; [exact H|].
  apply (@getAllEstimates_unique unit sampleStore _ H).
  - rewrite rev_involutive. apply Array_sort_Permutation.
  - rewrite rev_involutive. apply Array_sort_descending.
Defined.

(** * Further properties of the pricing engine *)

(** ** Tiers *)

(** X1: the importer total cost is the invoice value plus freight, import
    duty, destination customs clearance and destination transport, and the
    retailer price is that cost marked up by the distributor margin and
    then by the retailer margin. *)
Theorem retailerPrice_closed_form (input : CalculationInput Q) :
  let r := calculateEstimate input in
  Results.totalLogisticsCost r
  == Results.freightCost r + Results.importDutyCost r
     + Results.destinationCustomsClearance r + Results.destinationTransport r
  /\ Results.importerTotalCost r
     == Results.invoiceValue r + Results.freightCost r + Results.importDutyCost r
        + Results.destinationCustomsClearance r + Results.destinationTransport r
  /\ Results.distributorPrice r
     == Results.importerTotalCost r * (1 + Input.distributorMargin input / 100)
  /\ Results.retailerPrice r
     == (Results.invoiceValue r + Results.freightCost r + Results.importDutyCost r
         + Results.destinationCustomsClearance r + Results.destinationTransport r)
        * (1 + Input.distributorMargin input / 100)
        * (1 + Input.retailerMargin input / 100).
Proof.
  cbn [calculateEstimate Results.totalLogisticsCost Results.importerTotalCost
       Results.distributorPrice Results.retailerPrice Results.invoiceValue
       Results.freightCost Results.importDutyCost
       Results.destinationCustomsClearance Results.destinationTransport].
  unfold retailerPrice, distributorPrice, importerTotalCost, totalLogisticsCost,
    otherLogisticsCosts.
  exact_ops. generalize (invoiceValue input). intros v.
  repeat split; try reflexivity; ring.
Qed.

Lemma pos_nonzero (a : Q) : 0 < a -> ~ a == 0.
Proof. intros Ha E. rewrite E in Ha. discriminate. Qed.

(** X2: where the total procurement cost is positive, the total margin
    percentage is the markup that takes it to the retailer price:
    retailerPrice = totalProcurementCost * (1 + totalMarginPercentage/100);
    where it is not positive, the percentage is 0. *)
Theorem totalMarginPercentage_round_trip (input : CalculationInput Q) :
  let r := calculateEstimate input in
  (0 < Results.totalProcurementCost r ->
   Results.retailerPrice r
   == Results.totalProcurementCost r * (1 + Results.totalMarginPercentage r / 100))
  /\ (Results.totalProcurementCost r <= 0 -> Results.totalMarginPercentage r = 0).
Proof.
  cbn [calculateEstimate Results.totalProcurementCost Results.retailerPrice
       Results.totalMarginPercentage].
  unfold totalMarginPercentage. split.
  - intros Hpos. pose proof (pos_nonzero Hpos) as Hne.
    apply gtb_Q_true in Hpos. change (@num0 Q _) with 0 in *. rewrite Hpos.
    exact_ops. now field.
  - intros Hle. apply gtb_Q_false in Hle. change (@num0 Q _) with 0 in *.
    now rewrite Hle.
Qed.

(** The shipment has a positive procurement cost. *)
Lemma totalMarginPercentage_round_trip_witness :
  0 < Results.totalProcurementCost (calculateEstimate shipment)
  /\ Results.retailerPrice (calculateEstimate shipment)
     == Results.totalProcurementCost (calculateEstimate shipment)
        * (1 + Results.totalMarginPercentage (calculateEstimate shipment) / 100).
Proof.
  assert (H : 0 < Results.totalProcurementCost (calculateEstimate shipment))
    by reflexivity.
  split; [exact H|].
  exact (proj1 (totalMarginPercentage_round_trip shipment) H).
Defined.

(** ** Sums, shares and signs *)

Lemma sumOver_nonneg {A : Type} (f : A -> Q) (l : list A) :
  Forall (fun x => 0 <= f x) l -> 0 <= sumOver f l.
Proof.
  induction 1 as [|x l Hx _ IH].
  - apply Qle_refl.
  - rewrite sumOver_cons. lra.
Qed.

Lemma sumOver_le {A : Type} (f g : A -> Q) (l : list A) :
  Forall (fun x => f x <= g x) l -> sumOver f l <= sumOver g l.
Proof.
  induction 1 as [|x l Hx _ IH].
  - apply Qle_refl.
  - rewrite !sumOver_cons. lra.
Qed.

Lemma sumOver_Permutation {A : Type} (f : A -> Q) (l l' : list A) :
  Permutation l l' -> sumOver f l == sumOver f l'.
Proof.
  induction 1 as [| x l l' _ IH | x y l | l l' l'' _ IH1 _ IH2].
  - reflexivity.
  - rewrite !sumOver_cons, IH. reflexivity.
  - rewrite !sumOver_cons. ring.
  - now rewrite IH1.
Qed.

Lemma filter_Permutation {A : Type} (keep : A -> bool) (l l' : list A) :
  Permutation l l' -> Permutation (filter keep l) (filter keep l').
Proof.
  induction 1 as [| x l l' _ IH | x y l | l l' l'' _ IH1 _ IH2]; cbn [filter].
  - apply perm_nil.
  - destruct (keep x); [now apply perm_skip | exact IH].
  - destruct (keep x), (keep y); try apply Permutation_refl. apply perm_swap.
  - now apply perm_trans with (filter keep l').
Qed.

(** A sum weighted by value shares is the sum weighted by values, divided
    by the total value. *)
Lemma sumOver_shares (input : CalculationInput Q) (g : ProductLine Q -> Q) :
  ~ totalProductValue input == 0 ->
  sumOver (fun p => g p * valueShare input p) (includedProducts input)
  == sumOver (fun p => g p * lineValue p) (includedProducts input)
     / totalProductValue input.
Proof.
  intros Hne.
  transitivity (sumOver (fun p => / totalProductValue input * (g p * lineValue p))
                        (includedProducts input)).
  - apply sumOver_ext, Forall_forall. intros p _. unfold valueShare. now field.
  - rewrite sumOver_scale. now field.
Qed.

Lemma weightedMargin_times_total (input : CalculationInput Q) :
  0 < totalProductValue input ->
  weightedMargin input * totalProductValue input
  == sumOver (fun p => ProductLine.margin p * lineValue p) (includedProducts input).
Proof.
  intros Hpos. pose proof (pos_nonzero Hpos) as Hne.
  rewrite (weightedMargin_positive _ Hpos). unfold shareWeightedMargin.
  rewrite (@sumOver_shares input _ Hne). now field.
Qed.

Lemma included_lineValue_nonneg (input : CalculationInput Q) :
  Forall (fun p => 0 <= ProductLine.unitPrice p) (includedProducts input) ->
  Forall (fun p => 0 <= lineValue p) (includedProducts input).
Proof.
  intros Hu. rewrite Forall_forall in *. intros p Hp.
  pose proof (includedProducts_isIncluded input) as HF.
  rewrite Forall_forall in HF. pose proof (isIncluded_quantity_pos _ (HF p Hp)) as Hq.
  unfold lineValue. apply Qmult_le_0_compat; [now apply Qlt_le_weak | now apply Hu].
Qed.

(** X4: in exact arithmetic the weighted margin lies within the range of
    the margins it averages: with a positive total product value and no
    negative unit price among the filtered lines, bounds on every filtered
    line's margin are bounds on the weighted margin. (binary64 rounds each
    operation and can leave the bound by a rounding error.) *)
Theorem weightedMargin_between (input : CalculationInput Q) (lo hi : Q)
  (Hpos : 0 < totalProductValue input)
  (Hlines : Forall (fun p => 0 <= ProductLine.unitPrice p
                             /\ lo <= ProductLine.margin p <= hi)
                   (includedProducts input)) :
  lo <= weightedMargin input <= hi.
Proof.
  assert (Hv : Forall (fun p => 0 <= lineValue p) (includedProducts input)).
  { apply included_lineValue_nonneg. revert Hlines. apply Forall_impl. tauto. }
  pose proof (weightedMargin_times_total _ Hpos) as Hw.
  assert (Hlo : lo * totalProductValue input
                <= sumOver (fun p => ProductLine.margin p * lineValue p)
                           (includedProducts input)).
  { rewrite totalProductValue_sumOver, <- sumOver_scale. apply sumOver_le.
    rewrite Forall_forall in *. intros p Hp.
    apply Qmult_le_compat_r; [apply (Hlines p Hp) | now apply Hv]. }
  assert (Hhi : sumOver (fun p => ProductLine.margin p * lineValue p)
                        (includedProducts input)
                <= hi * totalProductValue input).
  { rewrite totalProductValue_sumOver, <- sumOver_scale. apply sumOver_le.
    rewrite Forall_forall in *. intros p Hp.
    apply Qmult_le_compat_r; [apply (Hlines p Hp) | now apply Hv]. }
  rewrite <- Hw in Hlo, Hhi. split.
  - now apply (Qmult_le_r _ _ _ Hpos).
  - now apply (Qmult_le_r _ _ _ Hpos).
Qed.

(** The shipment's two filtered lines have margins 10 and 20. *)
Lemma weightedMargin_between_witness :
  0 < totalProductValue shipment /\ 10 <= weightedMargin shipment <= 20.
Proof.
  assert (Hpos : 0 < totalProductValue shipment) by reflexivity.
  split; [exact Hpos|].
  apply (@weightedMargin_between shipment 10 20 Hpos).
  repeat constructor; discriminate.
Defined.

Lemma markup_ge (a rate : Q) : 0 <= a -> 0 <= rate -> a <= a * (1 + rate / 100).
Proof.
  intros Ha Hr.
  assert (H : 0 <= a * (rate / 100)).
  { apply Qmult_le_0_compat; [exact Ha|].
    apply Qle_shift_div_l; [reflexivity | lra]. }
  lra.
Qed.

Lemma weightedMargin_nonneg (input : CalculationInput Q) :
  Forall nonNegativeLine (Input.products input) -> 0 <= weightedMargin input.
Proof.
  intros Hl.
  assert (Hinc : Forall nonNegativeLine (includedProducts input)).
  { unfold includedProducts. rewrite Forall_forall in *. intros p Hp.
    apply filter_In in Hp. now apply Hl. }
  destruct (Qlt_le_dec 0 (totalProductValue input)) as [Hpos | Hle].
  - rewrite (weightedMargin_positive _ Hpos). unfold shareWeightedMargin.
    apply sumOver_nonneg. rewrite Forall_forall in *. intros p Hp.
    destruct (Hinc p Hp) as [Hq [Hu Hm]].
    apply Qmult_le_0_compat; [exact Hm|]. unfold valueShare.
    apply Qle_shift_div_l; [exact Hpos|].
    setoid_replace (0 * totalProductValue input) with 0 by ring.
    unfold lineValue. now apply Qmult_le_0_compat.
  - rewrite (weightedMargin_not_positive _ Hle). apply Qle_refl.
Qed.

(** X3: on an input that keeps the data model's invariant (no negative
    quantity, price, cost or percentage) no amount of the result is
    negative and the tiers are ordered: total procurement cost, invoice
    value, importer total cost, distributor price and retailer price never
    decrease from one to the next. *)
Theorem tiers_ordered (input : CalculationInput Q) (Hinv : nonNegativeInput input) :
  let r := calculateEstimate input in
  0 <= Results.rawMaterialsCost r
  /\ 0 <= Results.totalProcurementCost r
  /\ 0 <= Results.marginAmount r
  /\ 0 <= Results.exportDutyAmount r
  /\ Results.totalProcurementCost r <= Results.invoiceValue r
  /\ Results.invoiceValue r <= Results.importerTotalCost r
  /\ Results.importerTotalCost r <= Results.distributorPrice r
  /\ Results.distributorPrice r <= Results.retailerPrice r
  /\ 0 <= Results.totalMarginPercentage r.
Proof.
  destruct Hinv as (Hl & Ht & Hp & Hf & Hc & Hd & Hfr & Hi & Hdc & Hdt & Hdm & Hrm).
  pose proof (weightedMargin_nonneg _ Hl) as Hw.
  assert (Hraw : 0 <= rawMaterialsCost input).
  { change (rawMaterialsCost input) with (totalProductValue input).
    rewrite totalProductValue_sumOver. apply sumOver_nonneg.
    apply included_lineValue_nonneg. unfold includedProducts.
    rewrite Forall_forall in *. intros p Hp'. apply filter_In in Hp'.
    apply (Hl p (proj1 Hp')). }
  assert (Htpc : 0 <= totalProcurementCost input).
  { unfold totalProcurementCost, otherCosts. exact_ops. lra. }
  assert (Hma : 0 <= marginAmount input).
  { unfold marginAmount. exact_ops. apply Qmult_le_0_compat; [exact Htpc|].
    apply Qle_shift_div_l; [reflexivity | lra]. }
  assert (Hbd : totalProcurementCost input <= invoiceValueBeforeDuty input).
  { unfold invoiceValueBeforeDuty. exact_ops. lra. }
  assert (Hed : 0 <= exportDutyAmount input).
  { unfold exportDutyAmount. exact_ops. apply Qmult_le_0_compat; [lra|].
    apply Qle_shift_div_l; [reflexivity | lra]. }
  assert (Hiv : invoiceValueBeforeDuty input <= invoiceValue input).
  { unfold invoiceValue. exact_ops. lra. }
  assert (Hic : invoiceValue input <= importerTotalCost input).
  { unfold importerTotalCost, totalLogisticsCost, otherLogisticsCosts. exact_ops. lra. }
  assert (Hdp : importerTotalCost input <= distributorPrice input).
  { unfold distributorPrice. exact_ops. apply markup_ge; lra. }
  assert (Hrp : distributorPrice input <= retailerPrice input).
  { unfold retailerPrice. exact_ops. apply markup_ge; lra. }
  cbv zeta.
  cbn [calculateEstimate Results.rawMaterialsCost Results.totalProcurementCost
       Results.marginAmount Results.exportDutyAmount Results.invoiceValue
       Results.importerTotalCost Results.distributorPrice Results.retailerPrice
       Results.totalMarginPercentage].
  repeat split; try assumption; try lra.
  unfold totalMarginPercentage. change (@num0 Q _) with 0.
  destruct (gtb (totalProcurementCost input) 0) eqn:E; [|apply Qle_refl].
  apply gtb_Q_true in E. exact_ops.
  apply Qmult_le_0_compat; [|discriminate].
  apply Qle_shift_div_l; [exact E | lra].
Qed.

(** The shipment keeps the invariant. *)
Lemma tiers_ordered_witness :
  nonNegativeInput shipment
  /\ Results.distributorPrice (calculateEstimate shipment)
     <= Results.retailerPrice (calculateEstimate shipment).
Proof.
  assert (H : nonNegativeInput shipment).
  { unfold nonNegativeInput, nonNegativeLine.
    repeat split; try discriminate. repeat constructor; discriminate. }
  split; [exact H|].
  pose proof (tiers_ordered H) as R. cbv zeta in R.
  exact (proj1 (proj2 (proj2 (proj2 (proj2 (proj2 (proj2 (proj2 R)))))))).
Defined.

(** ** The breakdown *)

Lemma Forall2_map_right {A B : Type} (R : A -> B -> Prop) (f : A -> B) (l : list A) :
  Forall (fun x => R x (f x)) l -> Forall2 R l (map f l).
Proof.
  induction 1; cbn [map]; constructor; assumption.
Qed.

(** X5: the breakdown lists the filtered lines in their order, echoing
    name, quantity, unit price and margin; and in exact arithmetic, where
    the total product value is positive, every line gets the same markup:
    each per-unit price is the line's unit price times blended total /
    total product value. (In binary64 the two sides agree up to rounding.) *)
Theorem breakdown_uniform_markup (input : CalculationInput Q) :
  let r := calculateEstimate input in
  map (@Breakdown.name Q) (Results.productBreakdown r)
  = map (@ProductLine.name Q) (includedProducts input)
  /\ map (@Breakdown.quantity Q) (Results.productBreakdown r)
     = map (@ProductLine.quantity Q) (includedProducts input)
  /\ map (@Breakdown.unitCost Q) (Results.productBreakdown r)
     = map (@ProductLine.unitPrice Q) (includedProducts input)
  /\ map (@Breakdown.margin Q) (Results.productBreakdown r)
     = map (@ProductLine.margin Q) (includedProducts input)
  /\ (0 < totalProductValue input ->
      Forall2 (fun p b =>
                 Breakdown.invoicePrice b
                 == ProductLine.unitPrice p
                    * (Results.invoiceValue r / totalProductValue input)
                 /\ Breakdown.distributorPrice b
                    == ProductLine.unitPrice p
                       * (Results.distributorPrice r / totalProductValue input)
                 /\ Breakdown.retailerPrice b
                    == ProductLine.unitPrice p
                       * (Results.retailerPrice r / totalProductValue input))
              (includedProducts input) (Results.productBreakdown r)).
Proof.
  cbv zeta.
  cbn [calculateEstimate Results.productBreakdown Results.invoiceValue
       Results.distributorPrice Results.retailerPrice].
  unfold productBreakdown.
  repeat split; try (rewrite map_map; reflexivity).
  intros Hpos. pose proof (pos_nonzero Hpos) as Hne.
  apply Forall2_map_right.
  generalize (includedProducts_isIncluded input). apply Forall_impl.
  intros p Hp. apply isIncluded_quantity_pos in Hp.
  pose proof (pos_nonzero Hp) as Hq.
  unfold breakdownOf.
  cbn [Breakdown.invoicePrice Breakdown.distributorPrice Breakdown.retailerPrice].
  apply gtb_Q_true in Hpos. change (@num0 Q _) with 0. rewrite Hpos.
  exact_ops. repeat split; now field.
Qed.

(** On scenario B each per-unit invoice price is the unit price times the
    one blended factor. *)
Lemma breakdown_uniform_markup_witness :
  0 < totalProductValue (scenarioB_exact 10 20)
  /\ Forall2 (fun p b =>
                Breakdown.invoicePrice b
                == ProductLine.unitPrice p
                   * (Results.invoiceValue (calculateEstimate (scenarioB_exact 10 20))
                      / totalProductValue (scenarioB_exact 10 20))
                /\ Breakdown.distributorPrice b
                   == ProductLine.unitPrice p
                      * (Results.distributorPrice
                           (calculateEstimate (scenarioB_exact 10 20))
                         / totalProductValue (scenarioB_exact 10 20))
                /\ Breakdown.retailerPrice b
                   == ProductLine.unitPrice p
                      * (Results.retailerPrice
                           (calculateEstimate (scenarioB_exact 10 20))
                         / totalProductValue (scenarioB_exact 10 20)))
             (includedProducts (scenarioB_exact 10 20))
             (Results.productBreakdown (calculateEstimate (scenarioB_exact 10 20))).
Proof.
  assert (H : 0 < totalProductValue (scenarioB_exact 10 20)) by reflexivity.
  split; [exact H|].
  exact (proj2 (proj2 (proj2 (proj2
           (breakdown_uniform_markup (scenarioB_exact 10 20))))) H).
Defined.

(** X6: where the total product value is not positive (no filtered line,
    or none of any value) nothing is allocated: every per-unit price of
    the breakdown is 0, whatever the blended totals are. *)
Theorem breakdown_zero_without_value (input : CalculationInput Q)
  (Hzero : totalProductValue input <= 0) :
  Forall (fun b => Breakdown.invoicePrice b == 0
                   /\ Breakdown.distributorPrice b == 0
                   /\ Breakdown.retailerPrice b == 0)
         (Results.productBreakdown (calculateEstimate input)).
Proof.
  cbn [calculateEstimate Results.productBreakdown]. unfold productBreakdown.
  apply Forall_forall. intros b Hb. apply in_map_iff in Hb.
  destruct Hb as [p [<- _]]. unfold breakdownOf.
  cbn [Breakdown.invoicePrice Breakdown.distributorPrice Breakdown.retailerPrice].
  apply gtb_Q_false in Hzero. change (@num0 Q _) with 0. rewrite Hzero.
  exact_ops. unfold Qdiv. repeat split; ring.
Qed.

(** The line of no value beside a transport cost of 100. *)
Lemma breakdown_zero_without_value_witness :
  totalProductValue freeLine_exact <= 0
  /\ Forall (fun b => Breakdown.invoicePrice b == 0
                      /\ Breakdown.distributorPrice b == 0
                      /\ Breakdown.retailerPrice b == 0)
            (Results.productBreakdown (calculateEstimate freeLine_exact)).
Proof.
  assert (H : totalProductValue freeLine_exact <= 0) by discriminate.
  split; [exact H | exact (breakdown_zero_without_value freeLine_exact H)].
Defined.

(** ** Order of the product lines *)

Lemma gtb_Q_compat (a b : Q) : a == b -> gtb a 0 = gtb b 0.
Proof.
  intros E. destruct (gtb b 0) eqn:Hb.
  - apply gtb_Q_true. apply gtb_Q_true in Hb. now rewrite E.
  - apply gtb_Q_false. apply gtb_Q_false in Hb. now rewrite E.
Qed.

Lemma weightedMargin_Permutation (input input' : CalculationInput Q) :
  Permutation (includedProducts input) (includedProducts input') ->
  weightedMargin input == weightedMargin input'.
Proof.
  intros Hperm.
  assert (ET : totalProductValue input == totalProductValue input').
  { rewrite !totalProductValue_sumOver. now apply sumOver_Permutation. }
  destruct (Qlt_le_dec 0 (totalProductValue input)) as [Hpos | Hle].
  - assert (Hpos' : 0 < totalProductValue input') by now rewrite <- ET.
    pose proof (weightedMargin_times_total _ Hpos) as Hw.
    pose proof (weightedMargin_times_total _ Hpos') as Hw'.
    rewrite (sumOver_Permutation _ Hperm), <- Hw', <- ET in Hw.
    apply (Qmult_inj_r _ _ (totalProductValue input)); [|exact Hw].
    now apply pos_nonzero.
  - assert (Hle' : totalProductValue input' <= 0) by now rewrite <- ET.
    rewrite (weightedMargin_not_positive _ Hle), (weightedMargin_not_positive _ Hle').
    reflexivity.
Qed.

(** X7: the order of the product lines affects the order of the breakdown
    only: two product lists that are permutations of each other give the
    same raw materials cost, weighted margin, procurement cost, margin and
    duty amounts, invoice value, importer total cost, distributor and
    retailer price and total margin percentage, and breakdowns naming the
    same lines. *)
Theorem totals_ignore_order (input : CalculationInput Q) (ps ps' : list (ProductLine Q))
  (Hperm : Permutation ps ps') :
  let r := calculateEstimate (withProducts input ps) in
  let r' := calculateEstimate (withProducts input ps') in
  Results.rawMaterialsCost r == Results.rawMaterialsCost r'
  /\ weightedMargin (withProducts input ps) == weightedMargin (withProducts input ps')
  /\ Results.totalProcurementCost r == Results.totalProcurementCost r'
  /\ Results.marginAmount r == Results.marginAmount r'
  /\ Results.exportDutyAmount r == Results.exportDutyAmount r'
  /\ Results.invoiceValue r == Results.invoiceValue r'
  /\ Results.importerTotalCost r == Results.importerTotalCost r'
  /\ Results.distributorPrice r == Results.distributorPrice r'
  /\ Results.retailerPrice r == Results.retailerPrice r'
  /\ Results.totalMarginPercentage r == Results.totalMarginPercentage r'
  /\ Permutation (map (@Breakdown.name Q) (Results.productBreakdown r))
                 (map (@Breakdown.name Q) (Results.productBreakdown r')).
Proof.
  set (i := withProducts input ps). set (i' := withProducts input ps').
  assert (Hinc : Permutation (includedProducts i) (includedProducts i')).
  { now apply filter_Permutation. }
  assert (Eraw : rawMaterialsCost i == rawMaterialsCost i').
  { change (sumOver lineValue (includedProducts i)
            == sumOver lineValue (includedProducts i')).
    now apply sumOver_Permutation. }
  pose proof (weightedMargin_Permutation _ _ Hinc) as Ew.
  assert (Etpc : totalProcurementCost i == totalProcurementCost i').
  { unfold totalProcurementCost, otherCosts. exact_ops. rewrite Eraw. reflexivity. }
  assert (Ema : marginAmount i == marginAmount i').
  { unfold marginAmount. exact_ops. rewrite Etpc, Ew. reflexivity. }
  assert (Ebd : invoiceValueBeforeDuty i == invoiceValueBeforeDuty i').
  { unfold invoiceValueBeforeDuty. exact_ops. rewrite Etpc, Ema. reflexivity. }
  assert (Eed : exportDutyAmount i == exportDutyAmount i').
  { unfold exportDutyAmount. exact_ops. rewrite Ebd. reflexivity. }
  assert (Eiv : invoiceValue i == invoiceValue i').
  { unfold invoiceValue. exact_ops. rewrite Ebd, Eed. reflexivity. }
  assert (Eic : importerTotalCost i == importerTotalCost i').
  { unfold importerTotalCost. exact_ops. rewrite Eiv. reflexivity. }
  assert (Edp : distributorPrice i == distributorPrice i').
  { unfold distributorPrice. exact_ops. rewrite Eic. reflexivity. }
  assert (Erp : retailerPrice i == retailerPrice i').
  { unfold retailerPrice. exact_ops. rewrite Edp. reflexivity. }
  cbv zeta.
  cbn [calculateEstimate Results.rawMaterialsCost Results.totalProcurementCost
       Results.marginAmount Results.exportDutyAmount Results.invoiceValue
       Results.importerTotalCost Results.distributorPrice Results.retailerPrice
       Results.totalMarginPercentage Results.productBreakdown].
  repeat split; try assumption.
  - unfold totalMarginPercentage. change (@num0 Q _) with 0.
    rewrite (gtb_Q_compat Etpc).
    destruct (gtb (totalProcurementCost i') 0); [|reflexivity].
    exact_ops. rewrite Erp, Etpc. reflexivity.
  - unfold productBreakdown. rewrite !map_map.
    cbn [breakdownOf Breakdown.name]. now apply Permutation_map.
Qed.

(** Scenario B with its two lines exchanged. *)
Lemma totals_ignore_order_witness :
  Permutation [line "Basmati Rice" 10 100 10; line "Red Lentils" 20 50 20]
              [line "Red Lentils" 20 50 20; line "Basmati Rice" 10 100 10]
  /\ Results.retailerPrice
       (calculateEstimate
          (withProducts shipment
             [line "Basmati Rice" 10 100 10; line "Red Lentils" 20 50 20]))
     == Results.retailerPrice
          (calculateEstimate
             (withProducts shipment
                [line "Red Lentils" 20 50 20; line "Basmati Rice" 10 100 10])).
Proof.
  assert (H : Permutation [line "Basmati Rice" 10 100 10; line "Red Lentils" 20 50 20]
                          [line "Red Lentils" 20 50 20; line "Basmati Rice" 10 100 10])
    by apply perm_swap.
  split; [exact H|].
  pose proof (totals_ignore_order shipment H) as R. cbv zeta in R.
  exact (proj1 (proj2 (proj2 (proj2 (proj2 (proj2 (proj2 (proj2 (proj2 R))))))))).
Defined.

(** ** Applying the default margin *)

Section DefaultMargin.

Context {num : Type} `{Number num}.

Lemma filter_applyDefaultMargin (m : num) (ps : list (ProductLine num)) :
  filter isIncluded (applyDefaultMargin m ps)
  = applyDefaultMargin m (filter isIncluded ps).
Proof.
  induction ps as [|p ps IH]; cbn [applyDefaultMargin map filter].
  - reflexivity.
  - change (isIncluded _) with (isIncluded p) at 1.
    destruct (isIncluded p); cbn [map]; [f_equal|]; exact IH.
Qed.

End DefaultMargin.

Lemma sumOver_map {A B : Type} (f : B -> Q) (g : A -> B) (l : list A) :
  sumOver f (map g l) = sumOver (fun x => f (g x)) l.
Proof.
  unfold sumOver. generalize 0. induction l as [|x l IH]; intros a; cbn [map fold_left].
  - reflexivity.
  - apply IH.
Qed.

(** X8: in exact arithmetic, applying a default margin to the form's
    product lines leaves raw materials cost and total procurement cost as
    they were, and makes the weighted margin that default margin wherever
    the total product value is positive, so that the margin amount is the
    procurement cost times defaultMargin/100. (In binary64 the weighted
    margin is the default margin up to rounding.) *)
Theorem applyDefaultMargin_sets_weightedMargin (input : CalculationInput Q)
  (defaultMargin : Q) :
  let input' :=
    withProducts input (applyDefaultMargin defaultMargin (Input.products input)) in
  rawMaterialsCost input' = rawMaterialsCost input
  /\ totalProductValue input' = totalProductValue input
  /\ totalProcurementCost input' = totalProcurementCost input
  /\ (0 < totalProductValue input ->
      weightedMargin input' == defaultMargin
      /\ Results.marginAmount (calculateEstimate input')
         == Results.totalProcurementCost (calculateEstimate input)
            * (defaultMargin / 100)).
Proof.
  cbv zeta.
  set (input' := withProducts input (applyDefaultMargin defaultMargin (Input.products input))).
  assert (Einc : includedProducts input'
                 = applyDefaultMargin defaultMargin (includedProducts input)).
  { apply filter_applyDefaultMargin. }
  assert (ET : totalProductValue input' = totalProductValue input).
  { rewrite !totalProductValue_sumOver, Einc. unfold applyDefaultMargin.
    rewrite sumOver_map. reflexivity. }
  assert (Etpc : totalProcurementCost input' = totalProcurementCost input).
  { unfold totalProcurementCost.
    change (rawMaterialsCost input') with (totalProductValue input').
    change (rawMaterialsCost input) with (totalProductValue input).
    rewrite ET. reflexivity. }
  split; [exact ET|]. split; [exact ET|]. split; [exact Etpc|].
  intros Hpos.
  assert (Hpos' : 0 < totalProductValue input') by now rewrite ET.
  assert (Ew : weightedMargin input' == defaultMargin).
  { pose proof (weightedMargin_times_total _ Hpos') as Hw.
    rewrite Einc in Hw. unfold applyDefaultMargin in Hw. rewrite sumOver_map in Hw.
    cbn [ProductLine.margin] in Hw.
    assert (Hs : sumOver
                   (fun x : ProductLine Q =>
                      defaultMargin
                      * lineValue
                          {| ProductLine.name := ProductLine.name x;
                             ProductLine.quantity := ProductLine.quantity x;
                             ProductLine.unitPrice := ProductLine.unitPrice x;
                             ProductLine.included := ProductLine.included x;
                             ProductLine.margin := defaultMargin |})
                   (includedProducts input)
                 == defaultMargin * totalProductValue input).
    { rewrite totalProductValue_sumOver, <- sumOver_scale.
      apply sumOver_ext, Forall_forall. intros p _. reflexivity. }
    rewrite Hs, <- ET in Hw.
    apply (Qmult_inj_r _ _ (totalProductValue input')); [|exact Hw].
    now apply pos_nonzero. }
  split; [exact Ew|].
  cbn [calculateEstimate Results.marginAmount Results.totalProcurementCost].
  unfold marginAmount. rewrite Etpc. exact_ops. rewrite Ew. reflexivity.
Qed.

(** The shipment with a default margin of 18. *)
Lemma applyDefaultMargin_sets_weightedMargin_witness :
  0 < totalProductValue shipment
  /\ weightedMargin
       (withProducts shipment (applyDefaultMargin 18 (Input.products shipment)))
     == 18.
Proof.
  assert (H : 0 < totalProductValue shipment) by reflexivity.
  split; [exact H|].
  exact (proj1 (proj2 (proj2 (proj2
           (applyDefaultMargin_sets_weightedMargin shipment 18))) H)).
Defined.

(** * Further properties of the estimate store *)

(** ** Listings *)

Section Listings.

Variable Json : Type.
Context {L : LowerCase}.

(** X9: in every store state [getEstimatesByUser u] returns the stored
    records created by [u], each as often as it is stored, by descending
    identifier. *)
Theorem getEstimatesByUser_exact (this : MemStorage Json) (createdBy : string) :
  (forall e, In e (getEstimatesByUser createdBy this)
             <-> In e (map_values (estimates this)) /\ Estimate.createdBy e = createdBy)
  /\ Permutation (getEstimatesByUser createdBy this)
                 (filter (fun e => String.eqb (Estimate.createdBy e) createdBy)
                         (map_values (estimates this)))
  /\ descendingById (getEstimatesByUser createdBy this).
Proof.
  unfold getEstimatesByUser.
  destruct (sorted_filter_exact
              (fun e : Estimate Json => String.eqb (Estimate.createdBy e) createdBy)
              (map_values (estimates this))) as [HP [HS HI]].
  split; [|split; assumption].
  intros e. rewrite HI, String.eqb_eq. reflexivity.
Qed.

Lemma insertSorted_front (x : Estimate Json) (l : list (Estimate Json)) :
  Forall (fun z => (Estimate.id z <= Estimate.id x)%Z) l ->
  insertSorted (@byIdDescending Json) x l = x :: l.
Proof.
  intros Hl. destruct l as [|y l]; cbn [insertSorted]; [reflexivity|].
  apply Forall_inv in Hl. unfold byIdDescending.
  destruct (Estimate.id y - Estimate.id x <=? 0)%Z eqn:E; [reflexivity|].
  apply Z.leb_gt in E. lia.
Qed.

Lemma filter_insertSorted (keep : Estimate Json -> bool) (x : Estimate Json)
  (l : list (Estimate Json)) :
  descendingById l ->
  filter keep (insertSorted (@byIdDescending Json) x l)
  = if keep x then insertSorted (@byIdDescending Json) x (filter keep l)
    else filter keep l.
Proof.
  unfold descendingById.
  induction l as [|y l IH]; intros Hs; cbn [insertSorted].
  - cbn [filter]. now destruct (keep x).
  - apply StronglySorted_inv in Hs. destruct Hs as [Hl Hy].
    unfold byIdDescending at 1.
    destruct (Estimate.id y - Estimate.id x <=? 0)%Z eqn:E.
    + apply Z.leb_le in E. cbn [filter].
      destruct (keep x); [|reflexivity].
      symmetry. apply insertSorted_front.
      assert (Hall : Forall (fun z => (Estimate.id z <= Estimate.id x)%Z) (y :: l)).
      { constructor; [lia|]. revert Hy. apply Forall_impl. intros z Hz. lia. }
      change (if keep y then y :: filter keep l else filter keep l)
        with (filter keep (y :: l)).
      rewrite Forall_forall in *. intros z Hz. apply filter_In in Hz.
      now apply Hall.
    + cbn [filter]. specialize (IH Hl).
      destruct (keep y) eqn:Ky.
      * rewrite IH. destruct (keep x); [|reflexivity].
        cbn [insertSorted].
        change (byIdDescending x y) with (Estimate.id y - Estimate.id x)%Z.
        now rewrite E.
      * exact IH.
Qed.

Lemma Array_sort_filter (keep : Estimate Json -> bool) (l : list (Estimate Json)) :
  Array_sort (@byIdDescending Json) (filter keep l)
  = filter keep (Array_sort (@byIdDescending Json) l).
Proof.
  induction l as [|x l IH]; cbn [filter Array_sort fold_right].
  - reflexivity.
  - change (fold_right (insertSorted (@byIdDescending Json)) [] l)
      with (Array_sort (@byIdDescending Json) l).
    rewrite (filter_insertSorted keep x (Array_sort_descending l)).
    destruct (keep x).
    + cbn [Array_sort fold_right]. f_equal. exact IH.
    + exact IH.
Qed.

Lemma listings_are_filtered_full_listing_aux (this : MemStorage Json) :
  (forall s, getEstimatesByStatus s this
             = filter (fun e => String.eqb (Estimate.status e) s) (getAllEstimates this))
  /\ (forall q, searchEstimates q this
                = filter (fun e =>
                            includes (toLowerCase (Estimate.containerId e))
                                     (toLowerCase q)
                            || includes (toLowerCase (Estimate.destination e))
                                        (toLowerCase q))
                         (getAllEstimates this))
  /\ (forall u, getEstimatesByUser u this
                = filter (fun e => String.eqb (Estimate.createdBy e) u)
                         (getAllEstimates this)).
Proof.
  split; [|split]; intros x; apply Array_sort_filter.
Qed.

(** X10: in every store state the listings by status, by search and by
    user are the full listing with the other records left out, in the
    same order. *)
Theorem listings_are_filtered_full_listing (this : MemStorage Json) :
  (forall s, getEstimatesByStatus s this
             = filter (fun e => String.eqb (Estimate.status e) s) (getAllEstimates this))
  /\ (forall q, searchEstimates q this
                = filter (fun e =>
                            includes (toLowerCase (Estimate.containerId e))
                                     (toLowerCase q)
                            || includes (toLowerCase (Estimate.destination e))
                                        (toLowerCase q))
                         (getAllEstimates this))
  /\ (forall u, getEstimatesByUser u this
                = filter (fun e => String.eqb (Estimate.createdBy e) u)
                         (getAllEstimates this)).
Proof. exact (listings_are_filtered_full_listing_aux this). Qed.

Lemma filter_twice {A : Type} (f g : A -> bool) (l : list A) :
  filter f (filter g l) = filter (fun x => g x && f x) l.
Proof.
  induction l as [|x l IH]; cbn [filter]; [reflexivity|].
  destruct (g x); cbn [filter andb]; [destruct (f x)|]; now rewrite IH.
Qed.

Lemma includes_empty (s : string) : includes s EmptyString = true.
Proof. destruct s; reflexivity. Qed.

(** X11: what the history view shows is what the server would list,
    [toLowerCase] leaving the empty string empty: with the status selector
    on "all" the view's filter of the full listing is [searchEstimates] of
    the search box, with an empty search box and a status [s] other than
    "all" it is [getEstimatesByStatus s], and with both it is the search
    result restricted to status [s]. *)
Theorem filteredEstimates_matches_server (this : MemStorage Json)
  (Hempty : toLowerCase EmptyString = EmptyString) :
  (forall q, filteredEstimates q "all" (getAllEstimates this) = searchEstimates q this)
  /\ (forall s, s <> "all"%string ->
                filteredEstimates EmptyString s (getAllEstimates this)
                = getEstimatesByStatus s this)
  /\ (forall q s, s <> "all"%string ->
                  filteredEstimates q s (getAllEstimates this)
                  = filter (fun e => String.eqb (Estimate.status e) s)
                           (searchEstimates q this)).
Proof.
  destruct (listings_are_filtered_full_listing_aux this) as [Hs [Hq _]].
  split; [|split].
  - intros q. rewrite Hq. unfold filteredEstimates. apply filter_ext. intros e.
    cbn [String.eqb orb]. rewrite andb_true_r.
    destruct (String.eqb q EmptyString) eqn:E; [|reflexivity].
    apply String.eqb_eq in E. subst q. cbn [orb].
    now rewrite Hempty, includes_empty.
  - intros s Hne. rewrite Hs. unfold filteredEstimates. apply filter_ext. intros e.
    apply String.eqb_neq in Hne. rewrite Hne. reflexivity.
  - intros q s Hne. rewrite Hq, filter_twice. unfold filteredEstimates.
    apply filter_ext. intros e. apply String.eqb_neq in Hne. rewrite Hne.
    cbn [orb]. f_equal.
    destruct (String.eqb q EmptyString) eqn:E; [|reflexivity].
    apply String.eqb_eq in E. subst q. cbn [orb].
    now rewrite Hempty, includes_empty.
Qed.

End Listings.

(** A status filter and a search on the sample store. *)
Lemma filteredEstimates_matches_server_witness :
  @toLowerCase asciiOnly EmptyString = EmptyString
  /\ "completed"%string <> "all"%string
  /\ @filteredEstimates unit asciiOnly "hamburg" "completed"
       (getAllEstimates sampleStore)
     = filter (fun e => String.eqb (Estimate.status e) "completed")
              (@searchEstimates unit asciiOnly "hamburg" sampleStore).
Proof.
  assert (H : "completed"%string <> "all"%string) by discriminate.
  split; [reflexivity|]. split; [exact H|].
  exact (proj2 (proj2 (@filteredEstimates_matches_server
                         unit asciiOnly sampleStore eq_refl))
               "hamburg"%string "completed"%string H).
Defined.

(** ** Lookup, update and delete in the map *)

Section MapLookup.

Variable V : Type.

Lemma map_get_set_other (k k0 : Z) (v : V) (m : JsMap V) :
  k <> k0 -> map_get k (map_set k0 v m) = map_get k m.
Proof.
  intros Hne. induction m as [|[k' v'] m IH]; cbn [map_set map_get].
  - destruct (k =? k0)%Z eqn:E; [apply Z.eqb_eq in E; contradiction | reflexivity].
  - destruct (k0 =? k')%Z eqn:E0; cbn [map_get].
    + apply Z.eqb_eq in E0. subst k'.
      destruct (k =? k0)%Z eqn:E; [apply Z.eqb_eq in E; contradiction | reflexivity].
    + destruct (k =? k')%Z; [reflexivity | exact IH].
Qed.

Lemma map_get_None (k : Z) (m : JsMap V) :
  map_get k m = None <-> ~ In k (map_keys m).
Proof.
  unfold map_keys. induction m as [|[k' v'] m IH]; cbn [map_get map fst In].
  - tauto.
  - destruct (k =? k')%Z eqn:E.
    + apply Z.eqb_eq in E. split; [discriminate | intros H; exfalso; apply H; now left].
    + apply Z.eqb_neq in E. rewrite IH. split.
      * intros H [H' | H']; [congruence | contradiction].
      * intros H H'. apply H. now right.
Qed.

Lemma map_set_absent (k : Z) (v : V) (m : JsMap V) :
  map_get k m = None -> map_set k v m = m ++ [(k, v)].
Proof.
  induction m as [|[k' v'] m IH]; cbn [map_get map_set app]; [reflexivity|].
  destruct (k =? k')%Z; [discriminate|]. intros Hm. now rewrite IH.
Qed.

Lemma map_set_present_keys (k : Z) (v v0 : V) (m : JsMap V) :
  map_get k m = Some v0 -> map_keys (map_set k v m) = map_keys m.
Proof.
  unfold map_keys. induction m as [|[k' v'] m IH]; cbn [map_get map_set]; [discriminate|].
  destruct (k =? k')%Z eqn:E; cbn [map fst].
  - apply Z.eqb_eq in E. now subst.
  - intros Hm. now rewrite IH.
Qed.

Lemma map_set_same_value (k : Z) (v : V) (m : JsMap V) :
  map_get k m = Some v -> map_set k v m = m.
Proof.
  induction m as [|[k' v'] m IH]; cbn [map_get map_set]; [discriminate|].
  destruct (k =? k')%Z eqn:E.
  - apply Z.eqb_eq in E. intros [= ->]. now subst.
  - intros Hm. now rewrite IH.
Qed.

Lemma map_delete_found (k : Z) (m : JsMap V) :
  fst (map_delete k m) = match map_get k m with Some _ => true | None => false end.
Proof.
  induction m as [|[k' v'] m IH]; cbn [map_delete map_get fst]; [reflexivity|].
  destruct (k =? k')%Z; [reflexivity|].
  destruct (map_delete k m) as [found rest]. exact IH.
Qed.

Lemma map_get_delete_other (k k0 : Z) (m : JsMap V) :
  k <> k0 -> map_get k (snd (map_delete k0 m)) = map_get k m.
Proof.
  intros Hne. induction m as [|[k' v'] m IH]; cbn [map_delete map_get snd]; [reflexivity|].
  destruct (k0 =? k')%Z eqn:E0; cbn [snd].
  - apply Z.eqb_eq in E0. subst k'.
    destruct (k =? k0)%Z eqn:E; [apply Z.eqb_eq in E; contradiction | reflexivity].
  - destruct (map_delete k0 m) as [found rest]. cbn [snd map_get] in *.
    destruct (k =? k')%Z; [reflexivity | exact IH].
Qed.

Lemma map_get_delete_same (k : Z) (m : JsMap V) :
  NoDup (map_keys m) -> map_get k (snd (map_delete k m)) = None.
Proof.
  unfold map_keys. induction m as [|[k' v'] m IH]; cbn [map_delete map snd fst];
    intros Hn; [reflexivity|].
  apply NoDup_cons_iff in Hn. destruct Hn as [Hk' Hn].
  destruct (k =? k')%Z eqn:E; cbn [snd].
  - apply Z.eqb_eq in E. subst k'. now apply map_get_None.
  - specialize (IH Hn). destruct (map_delete k m) as [found rest].
    cbn [snd map_get] in *. now rewrite E.
Qed.

Lemma In_map_get (k : Z) (v : V) (m : JsMap V) :
  NoDup (map_keys m) -> In (k, v) m -> map_get k m = Some v.
Proof.
  unfold map_keys. induction m as [|[k' v'] m IH]; cbn [map fst In map_get];
    intros Hn Hin; [contradiction|].
  apply NoDup_cons_iff in Hn. destruct Hn as [Hk' Hn].
  destruct Hin as [[= -> ->] | Hin].
  - now rewrite Z.eqb_refl.
  - destruct (k =? k')%Z eqn:E; [|now apply IH].
    apply Z.eqb_eq in E. subst k'. exfalso. apply Hk'.
    change k with (fst (k, v)). now apply in_map.
Qed.

End MapLookup.

(** ** Creating, updating and deleting *)

Section StoreOperations.

Variable Json : Type.

Lemma reachable_keysBelowNext (this : MemStorage Json) :
  reachable this -> keysBelowNext this.
Proof.
  intros [calls ->].
  assert (H0 : keysBelowNext (constructor Json)) by constructor.
  exact (proj1 (run_keeps_order calls H0)).
Qed.

Lemma reachable_ids_below_next (this : MemStorage Json) :
  reachable this ->
  Forall (fun e => (Estimate.id e < currentId this)%Z) (map_values (estimates this)).
Proof.
  intros Hr. pose proof (reachable_keysBelowNext Hr) as Hk.
  destruct (reachable_ownIds Hr) as [_ Hi].
  unfold keysBelowNext, map_keys, map_values in *.
  rewrite Forall_forall in *. intros e He. apply in_map_iff in He.
  destruct He as [[k e'] [<- Hin]]. cbn [snd].
  pose proof (Hi _ Hin) as Hid. cbn [snd fst] in Hid. rewrite Hid. apply Hk.
  change k with (fst (k, e')). now apply in_map.
Qed.

Lemma Array_sort_newest (e : Estimate Json) (l : list (Estimate Json)) :
  Forall (fun z => (Estimate.id z < Estimate.id e)%Z) l ->
  Array_sort (@byIdDescending Json) (l ++ [e])
  = e :: Array_sort (@byIdDescending Json) l.
Proof.
  unfold Array_sort. rewrite fold_right_app. cbn [fold_right insertSorted].
  induction 1 as [|x l Hx _ IH]; cbn [fold_right]; [reflexivity|].
  rewrite IH. cbn [insertSorted].
  change (byIdDescending x e) with (Estimate.id e - Estimate.id x)%Z.
  destruct (Estimate.id e - Estimate.id x <=? 0)%Z eqn:E; [|reflexivity].
  apply Z.leb_le in E. lia.
Qed.

Lemma createEstimate_on_reachable (this : MemStorage Json) (ins : InsertEstimate Json)
  (Hr : reachable this) :
  let this' := fst (createEstimate ins this) in
  let e := snd (createEstimate ins this) in
  getAllEstimates this' = e :: getAllEstimates this
  /\ getEstimate (Estimate.id e) this = None
  /\ getEstimate (Estimate.id e) this' = Some e
  /\ (forall k, k <> Estimate.id e -> getEstimate k this' = getEstimate k this).
Proof.
  cbv zeta. pose proof (reachable_keysBelowNext Hr) as Hk.
  pose proof (reachable_ids_below_next Hr) as Hi.
  cbn [createEstimate fst snd Estimate.id].
  assert (Hfresh : map_get (currentId this) (estimates this) = None).
  { apply map_get_None. intros Hin. unfold keysBelowNext in Hk.
    rewrite Forall_forall in Hk. specialize (Hk _ Hin). lia. }
  unfold getAllEstimates, getEstimate. cbn [estimates].
  split; [|split; [exact Hfresh | split]].
  - rewrite map_set_absent by exact Hfresh. unfold map_values. rewrite map_app.
    cbn [map snd]. apply Array_sort_newest. exact Hi.
  - apply map_get_set_same.
  - intros k Hne. now apply map_get_set_other.
Qed.

(** X12: on a store reached by calls from a new one, the record
    [createEstimate] makes is the first of the next full listing, ahead of
    the previous listing left as it was; its identifier held no record
    before, and the lookup of every other identifier is unchanged. *)
Theorem createEstimate_listed_first (this : MemStorage Json) (ins : InsertEstimate Json)
  (Hr : reachable this) :
  let this' := fst (createEstimate ins this) in
  let e := snd (createEstimate ins this) in
  getAllEstimates this' = e :: getAllEstimates this
  /\ getEstimate (Estimate.id e) this = None
  /\ getEstimate (Estimate.id e) this' = Some e
  /\ (forall k, k <> Estimate.id e -> getEstimate k this' = getEstimate k this).
Proof. exact (createEstimate_on_reachable ins Hr). Qed.

Lemma applyUpdate_empty (existing : Estimate Json) :
  applyUpdate existing (emptyUpdate Json) = existing.
Proof. destruct existing; reflexivity. Qed.

Lemma override_replaced {A : Type} (x : option A) (old : A) :
  replaced x old (override x old).
Proof.
  unfold replaced, override. split.
  - now intros v ->.
  - now intros ->.
Qed.

(** X13: [updateEstimate] on an identifier that holds no record returns
    nothing and leaves the store as it is. On one that holds a record it
    returns and stores a record with the same identifier in which every
    column the update supplies has the supplied value and every other
    column the value it had; the record keeps its place in the map, no
    other lookup changes and neither does the next identifier; and an
    update with no column at all returns the record and leaves the store
    as it is. *)
Theorem updateEstimate_round_trip (this : MemStorage Json) (id : Z)
  (u : UpdateEstimate Json) :
  (getEstimate id this = None -> updateEstimate id u this = (this, None))
  /\ (forall existing,
        getEstimate id this = Some existing ->
        let this' := fst (updateEstimate id u this) in
        exists updated,
          snd (updateEstimate id u this) = Some updated
          /\ getEstimate id this' = Some updated
          /\ Estimate.id updated = Estimate.id existing
          /\ replaced (Update.containerId u) (Estimate.containerId existing)
                      (Estimate.containerId updated)
          /\ replaced (Update.destination u) (Estimate.destination existing)
                      (Estimate.destination updated)
          /\ replaced (Update.estimateDate u) (Estimate.estimateDate existing)
                      (Estimate.estimateDate updated)
          /\ replaced (Update.status u) (Estimate.status existing)
                      (Estimate.status updated)
          /\ replaced (Update.products u) (Estimate.products existing)
                      (Estimate.products updated)
          /\ replaced (Update.transportCost u) (Estimate.transportCost existing)
                      (Estimate.transportCost updated)
          /\ replaced (Update.packingCost u) (Estimate.packingCost existing)
                      (Estimate.packingCost updated)
          /\ replaced (Update.fumigationCost u) (Estimate.fumigationCost existing)
                      (Estimate.fumigationCost updated)
          /\ replaced (Update.customsClearanceCost u)
                      (Estimate.customsClearanceCost existing)
                      (Estimate.customsClearanceCost updated)
          /\ replaced (Update.exportDutyRate u) (Estimate.exportDutyRate existing)
                      (Estimate.exportDutyRate updated)
          /\ replaced (Update.defaultMargin u) (Estimate.defaultMargin existing)
                      (Estimate.defaultMargin updated)
          /\ replaced (Update.freightCost u) (Estimate.freightCost existing)
                      (Estimate.freightCost updated)
          /\ replaced (Update.importDuty u) (Estimate.importDuty existing)
                      (Estimate.importDuty updated)
          /\ replaced (Update.destinationCustomsClearance u)
                      (Estimate.destinationCustomsClearance existing)
                      (Estimate.destinationCustomsClearance updated)
          /\ replaced (Update.destinationTransport u)
                      (Estimate.destinationTransport existing)
                      (Estimate.destinationTransport updated)
          /\ replaced (Update.distributorMargin u)
                      (Estimate.distributorMargin existing)
                      (Estimate.distributorMargin updated)
          /\ replaced (Update.retailerMargin u) (Estimate.retailerMargin existing)
                      (Estimate.retailerMargin updated)
          /\ replaced (Update.calculationResults u)
                      (Estimate.calculationResults existing)
                      (Estimate.calculationResults updated)
          /\ replaced (Update.createdBy u) (Estimate.createdBy existing)
                      (Estimate.createdBy updated)
          /\ replaced (Update.userRole u) (Estimate.userRole existing)
                      (Estimate.userRole updated)
          /\ (forall k, k <> id -> getEstimate k this' = getEstimate k this)
          /\ map_keys (estimates this') = map_keys (estimates this)
          /\ currentId this' = currentId this)
  /\ (forall existing,
        getEstimate id this = Some existing ->
        updateEstimate id (emptyUpdate Json) this = (this, Some existing)).
Proof.
  unfold getEstimate, updateEstimate. split; [|split].
  - intros ->. reflexivity.
  - intros existing E. rewrite E. cbv zeta. cbn [fst snd estimates currentId].
    exists (applyUpdate existing u).
    split; [reflexivity|]. split; [apply map_get_set_same|].
    split; [reflexivity|].
    unfold applyUpdate.
    cbn [Estimate.containerId Estimate.destination Estimate.estimateDate
         Estimate.status Estimate.products Estimate.transportCost
         Estimate.packingCost Estimate.fumigationCost Estimate.customsClearanceCost
         Estimate.exportDutyRate Estimate.defaultMargin Estimate.freightCost
         Estimate.importDuty Estimate.destinationCustomsClearance
         Estimate.destinationTransport Estimate.distributorMargin
         Estimate.retailerMargin Estimate.calculationResults Estimate.createdBy
         Estimate.userRole].
    repeat (split; [apply override_replaced|]).
    split; [intros k Hne; now apply map_get_set_other|].
    split; [now apply map_set_present_keys with (v0 := existing) | reflexivity].
  - intros existing E. rewrite E, applyUpdate_empty.
    rewrite map_set_same_value by exact E.
    now destruct this.
Qed.

Lemma deleteEstimate_parts (id : Z) (this : MemStorage Json) :
  estimates (fst (deleteEstimate id this)) = snd (map_delete id (estimates this))
  /\ currentId (fst (deleteEstimate id this)) = currentId this
  /\ snd (deleteEstimate id this) = fst (map_delete id (estimates this)).
Proof.
  unfold deleteEstimate. destruct (map_delete id (estimates this)). now repeat split.
Qed.

Lemma map_values_delete (id : Z) (m : JsMap (Estimate Json)) :
  NoDup (map_keys m) ->
  Forall (fun kv => Estimate.id (snd kv) = fst kv) m ->
  map_values (snd (map_delete id m))
  = filter (fun e => negb (Estimate.id e =? id)%Z) (map_values m).
Proof.
  unfold map_values, map_keys.
  induction m as [|[k v] m IH]; cbn [map_delete map snd fst filter]; intros Hn Hi;
    [reflexivity|].
  apply NoDup_cons_iff in Hn. destruct Hn as [Hk Hn].
  apply Forall_inv_tail in Hi as Hi'. apply Forall_inv in Hi. cbn [snd fst] in Hi.
  rewrite Hi, (Z.eqb_sym k id).
  destruct (id =? k)%Z eqn:E; cbn [negb snd].
  - apply Z.eqb_eq in E. subst k. symmetry.
    apply forallb_filter_id. apply forallb_forall. intros e He.
    apply in_map_iff in He. destruct He as [[k' e'] [<- Hin]]. cbn [snd].
    rewrite Forall_forall in Hi'. pose proof (Hi' _ Hin) as Hid.
    cbn [snd fst] in Hid. rewrite Hid.
    apply negb_true_iff, Z.eqb_neq. intros ->. apply Hk. rewrite <- E.
    change id with (fst (id, e')). now apply in_map.
  - specialize (IH Hn Hi'). destruct (map_delete id m) as [found rest].
    cbn [snd map] in *. now rewrite IH.
Qed.

Lemma deleteEstimate_effect (this : MemStorage Json) (id : Z) :
  let this' := fst (deleteEstimate id this) in
  (snd (deleteEstimate id this) = true <-> getEstimate id this <> None)
  /\ (forall k, k <> id -> getEstimate k this' = getEstimate k this)
  /\ currentId this' = currentId this
  /\ (reachable this ->
      getEstimate id this' = None
      /\ getAllEstimates this'
         = filter (fun e => negb (Estimate.id e =? id)%Z) (getAllEstimates this)
      /\ snd (deleteEstimate id this') = false).
Proof.
  cbv zeta. destruct (deleteEstimate_parts id this) as [Ee [Ec Ef]].
  unfold getEstimate, getAllEstimates. rewrite Ee, Ef, Ec.
  split; [|split; [|split; [reflexivity|]]].
  - rewrite map_delete_found.
    destruct (map_get id (estimates this)); split; congruence.
  - intros k Hne. now apply map_get_delete_other.
  - intros Hr. destruct (reachable_ownIds Hr) as [Hn Hi].
    assert (Hgone : map_get id (snd (map_delete id (estimates this))) = None)
      by now apply map_get_delete_same.
    split; [exact Hgone|]. split.
    + rewrite map_values_delete by assumption. apply Array_sort_filter.
    + destruct (deleteEstimate_parts id (fst (deleteEstimate id this))) as [_ [_ Ef']].
      rewrite Ef', Ee, map_delete_found, Hgone. reflexivity.
Qed.

(** X14: [deleteEstimate] answers true exactly when the identifier holds a
    record, and changes neither the lookup of any other identifier nor the
    next identifier. On a store reached by calls from a new one the
    identifier holds nothing afterwards, the full listing is the previous
    one without that record, and deleting again answers false. *)
Theorem deleteEstimate_removes (this : MemStorage Json) (id : Z) :
  let this' := fst (deleteEstimate id this) in
  (snd (deleteEstimate id this) = true <-> getEstimate id this <> None)
  /\ (forall k, k <> id -> getEstimate k this' = getEstimate k this)
  /\ currentId this' = currentId this
  /\ (reachable this ->
      getEstimate id this' = None
      /\ getAllEstimates this'
         = filter (fun e => negb (Estimate.id e =? id)%Z) (getAllEstimates this)
      /\ snd (deleteEstimate id this') = false).
Proof. exact (deleteEstimate_effect this id). Qed.

(** X15: on a store reached by calls from a new one, listing and lookup
    agree: a record is in the full listing exactly when looking up its
    identifier returns it; every record found under an identifier carries
    that identifier, which lies below the next one; and no two listed
    records share an identifier. *)
Theorem listing_agrees_with_lookup (this : MemStorage Json) (Hr : reachable this) :
  (forall e, In e (getAllEstimates this) <-> getEstimate (Estimate.id e) this = Some e)
  /\ (forall k e, getEstimate k this = Some e ->
                  Estimate.id e = k /\ (k < currentId this)%Z)
  /\ NoDup (map (@Estimate.id Json) (getAllEstimates this)).
Proof.
  destruct (reachable_ownIds Hr) as [Hn Hi].
  pose proof (reachable_ids_below_next Hr) as Hb.
  assert (Hget : forall k e, getEstimate k this = Some e ->
                             Estimate.id e = k /\ In e (map_values (estimates this))).
  { intros k e E. apply map_get_In in E. split.
    - rewrite Forall_forall in Hi. exact (Hi _ E).
    - unfold map_values. change e with (snd (k, e)). now apply in_map. }
  split; [|split].
  - intros e. unfold getAllEstimates. rewrite Array_sort_In. split.
    + intros He. unfold map_values in He. apply in_map_iff in He.
      destruct He as [[k e'] [E Hin]]. cbn [snd] in E. subst e'.
      rewrite Forall_forall in Hi. pose proof (Hi _ Hin) as Hid. cbn [snd fst] in Hid.
      rewrite Hid. now apply In_map_get.
    + intros E. exact (proj2 (Hget _ _ E)).
  - intros k e E. destruct (Hget _ _ E) as [Hid Hin]. split; [exact Hid|].
    rewrite Forall_forall in Hb. rewrite <- Hid. now apply Hb.
  - apply (Permutation_NoDup
             (Permutation_map _ (Permutation_sym
                (Array_sort_Permutation (@byIdDescending Json)
                   (map_values (estimates this)))))).
    now apply reachable_distinct_ids.
Qed.

Lemma perform_currentId (this : MemStorage Json) (c : Call Json) :
  currentId (fst (perform this c))
  = (currentId this + (if isCreate c then 1 else 0))%Z
  /\ snd (perform this c) = if isCreate c then [currentId this] else [].
Proof.
  destruct c as [ins | id u | id]; cbn [perform isCreate fst snd].
  - cbn [createEstimate fst snd currentId Estimate.id]. now split.
  - unfold updateEstimate. destruct (map_get id (estimates this));
      cbn [fst currentId]; split; (reflexivity || lia).
  - destruct (deleteEstimate_parts id this) as [_ [Ec _]]. rewrite Ec. split; [lia|reflexivity].
Qed.

Lemma run_identifiers (calls : list (Call Json)) (this : MemStorage Json) :
  snd (run calls this)
  = map (fun i => (currentId this + Z.of_nat i)%Z) (seq 0 (creations calls))
  /\ currentId (fst (run calls this))
     = (currentId this + Z.of_nat (creations calls))%Z.
Proof.
  revert this. induction calls as [|c calls IH]; intros this; cbn [run].
  - cbn. split; [reflexivity | lia].
  - destruct (perform_currentId this c) as [Ec Ea].
    destruct (perform this c) as [this1 assigned]. cbn [fst snd] in *.
    destruct (IH this1) as [Hs Hc].
    destruct (run calls this1) as [final later]. cbn [fst snd] in *.
    unfold creations in *. cbn [filter].
    destruct (isCreate c); cbn [List.length].
    + subst assigned later. rewrite Hc, Ec. split; [|lia].
      cbn [seq map app]. f_equal; [f_equal; lia|].
      rewrite <- seq_shift, map_map. apply map_ext. intros i. lia.
    + subst assigned later. rewrite Hc, Ec. split; [|lia].
      cbn [app]. apply map_ext. intros i. lia.
Qed.

(** X20: identifiers are handed out consecutively from 1: after any
    sequence of calls on a new store the identifiers assigned by the
    [createEstimate] calls are 1, 2, ..., n in that order, n being the
    number of those calls, and the next identifier is n + 1, whatever was
    updated or deleted in between. *)
Theorem identifiers_consecutive (calls : list (Call Json)) :
  snd (run calls (constructor Json))
  = map Z.of_nat (seq 1 (creations calls))
  /\ currentId (fst (run calls (constructor Json)))
     = (Z.of_nat (creations calls) + 1)%Z.
Proof.
  destruct (run_identifiers calls (constructor Json)) as [Hs Hc].
  rewrite Hs, Hc. cbn [constructor currentId]. split; [|lia].
  rewrite <- seq_shift, map_map. apply map_ext. intros i. lia.
Qed.

End StoreOperations.

(** A fifth record on the sample store comes first in the listing. *)
Lemma createEstimate_listed_first_witness :
  reachable sampleStore
  /\ map (@Estimate.id unit)
         (getAllEstimates
            (fst (createEstimate (sampleInsert "CNT-005" "Oslo" None) sampleStore)))
     = [5; 4; 3; 2]%Z.
Proof.
  assert (H : reachable sampleStore) by (exists sampleCalls; reflexivity).
  split; [exact H|].
  rewrite (proj1 (@createEstimate_listed_first
                    unit sampleStore (sampleInsert "CNT-005" "Oslo" None) H)).
  reflexivity.
Defined.

(** Record 3 of the sample store, archived and sent to Oslo: status and
    destination change, the transport cost stays. *)
Lemma updateEstimate_round_trip_witness :
  getEstimate 3 sampleStore = Some hamburgRecord
  /\ exists updated,
       getEstimate 3 (fst (updateEstimate 3 archiveInOslo sampleStore)) = Some updated
       /\ Estimate.status updated = "archived"%string
       /\ Estimate.destination updated = "Oslo"%string
       /\ Estimate.transportCost updated = Estimate.transportCost hamburgRecord.
Proof.
  assert (H : getEstimate 3 sampleStore = Some hamburgRecord) by reflexivity.
  split; [exact H|].
  destruct (proj1 (proj2 (@updateEstimate_round_trip unit sampleStore 3 archiveInOslo))
                  hamburgRecord H)
    as [updated R].
  exists updated.
  split; [exact (proj1 (proj2 R))|].
  split; [exact (proj1 (proj1 (proj2 (proj2 (proj2 (proj2 (proj2 (proj2 R)))))))
                   _ eq_refl)|].
  split; [exact (proj1 (proj1 (proj2 (proj2 (proj2 (proj2 R))))) _ eq_refl)|].
  exact (proj2 (proj1 (proj2 (proj2 (proj2 (proj2 (proj2 (proj2 (proj2 (proj2 R)))))))))
               eq_refl).
Defined.

(** Deleting record 3 of the sample store. *)
Lemma deleteEstimate_removes_witness :
  reachable sampleStore
  /\ getEstimate 3 (fst (deleteEstimate 3 sampleStore)) = None.
Proof.
  assert (H : reachable sampleStore) by (exists sampleCalls; reflexivity).
  split; [exact H|].
  exact (proj1 (proj2 (proj2 (proj2 (@deleteEstimate_removes unit sampleStore 3))) H)).
Defined.

(** Identifier 1 of the sample store was deleted and is not listed. *)
Lemma listing_agrees_with_lookup_witness :
  reachable sampleStore
  /\ NoDup (map (@Estimate.id unit) (getAllEstimates sampleStore)).
Proof.
  assert (H : reachable sampleStore) by (exists sampleCalls; reflexivity).
  split; [exact H | exact (proj2 (proj2 (@listing_agrees_with_lookup unit sampleStore H)))].
Defined.

(** * Properties of the routes *)

Section RouteFacts.

Variable Json : Type.
Variable Body : Type.
Variable Issues : Type.
Context {L : LowerCase}.
Variable parseInt : string -> option Z.
Variable insertEstimateSchema_parse : Body -> Issues + InsertEstimate Json.
Variable updateEstimateSchema_parse : Body -> Issues + UpdateEstimate Json.

Local Abbreviation duplicate := (@duplicateRoute Json Issues parseInt).
Local Abbreviation getOne := (@getRoute Json Issues parseInt).
Local Abbreviation delete := (@deleteRoute Json Issues parseInt).
Local Abbreviation patch :=
  (@patchRoute Json Body Issues parseInt updateEstimateSchema_parse).
Local Abbreviation handleRequest :=
  (@handle Json Body Issues L parseInt insertEstimateSchema_parse
           updateEstimateSchema_parse).
Local Abbreviation serveAll :=
  (@serve Json Body Issues L parseInt insertEstimateSchema_parse
          updateEstimateSchema_parse).

Lemma found_below_next (this : MemStorage Json) (id : Z) (e : Estimate Json) :
  reachable this -> getEstimate id this = Some e -> (id < currentId this)%Z.
Proof.
  intros Hr E. pose proof (reachable_keysBelowNext Hr) as Hk.
  unfold keysBelowNext in Hk. rewrite Forall_forall in Hk. apply Hk.
  apply map_get_In in E. unfold map_keys.
  change id with (fst (id, e)). now apply in_map.
Qed.

(** X17: the duplicate route answers 400 for an identifier that is no
    number and 404, leaving the store as it is, for one that holds no
    record. For one that holds a record, on a store reached by calls from
    a new one, it answers 201 with a new record under the next identifier:
    container identifier with "-COPY" appended, status "draft", every
    other text and [jsonb] column copied, and every decimal column copied
    unless it is empty, in which case it is the column's default. The
    original stays as it was and the copy comes first in the listing. *)
Theorem duplicateRoute_copies (this : MemStorage Json) (idParam : string)
  (Hr : reachable this) :
  (parseInt idParam = None ->
   duplicate idParam this
   = (this, respond 400 (Message "Invalid estimate ID")))
  /\ (forall id, parseInt idParam = Some id -> getEstimate id this = None ->
                 duplicate idParam this
                 = (this, respond 404 (Message "Original estimate not found")))
  /\ (forall id original,
        parseInt idParam = Some id -> getEstimate id this = Some original ->
        exists this' d,
          duplicate idParam this = (this', respond 201 (OneEstimate d))
          /\ Estimate.id d = currentId this
          /\ Estimate.id d <> id
          /\ Estimate.containerId d
             = (Estimate.containerId original ++ "-COPY")%string
          /\ Estimate.status d = "draft"%string
          /\ Estimate.destination d = Estimate.destination original
          /\ Estimate.estimateDate d = Estimate.estimateDate original
          /\ Estimate.products d = Estimate.products original
          /\ Estimate.calculationResults d = Estimate.calculationResults original
          /\ Estimate.createdBy d = Estimate.createdBy original
          /\ Estimate.userRole d = Estimate.userRole original
          /\ defaulted (Some (Estimate.transportCost original)) "0"
                       (Estimate.transportCost d)
          /\ defaulted (Some (Estimate.packingCost original)) "0"
                       (Estimate.packingCost d)
          /\ defaulted (Some (Estimate.fumigationCost original)) "0"
                       (Estimate.fumigationCost d)
          /\ defaulted (Some (Estimate.customsClearanceCost original)) "0"
                       (Estimate.customsClearanceCost d)
          /\ defaulted (Some (Estimate.exportDutyRate original)) "0"
                       (Estimate.exportDutyRate d)
          /\ defaulted (Some (Estimate.defaultMargin original)) "15"
                       (Estimate.defaultMargin d)
          /\ defaulted (Some (Estimate.freightCost original)) "0"
                       (Estimate.freightCost d)
          /\ defaulted (Some (Estimate.importDuty original)) "0"
                       (Estimate.importDuty d)
          /\ defaulted (Some (Estimate.destinationCustomsClearance original)) "0"
                       (Estimate.destinationCustomsClearance d)
          /\ defaulted (Some (Estimate.destinationTransport original)) "0"
                       (Estimate.destinationTransport d)
          /\ defaulted (Some (Estimate.distributorMargin original)) "12"
                       (Estimate.distributorMargin d)
          /\ defaulted (Some (Estimate.retailerMargin original)) "20"
                       (Estimate.retailerMargin d)
          /\ getEstimate id this' = Some original
          /\ getEstimate (Estimate.id d) this' = Some d
          /\ getAllEstimates this' = d :: getAllEstimates this).
Proof.
  unfold duplicateRoute. split; [|split].
  - intros ->. reflexivity.
  - intros id -> ->. reflexivity.
  - intros id original -> E. rewrite E.
    pose proof (@found_below_next this id original Hr E) as Hlt.
    destruct (@createEstimate_on_reachable Json this (duplicateData original) Hr)
      as [Hlist [_ [Hnew Hother]]].
    destruct (createEstimate (duplicateData original) this) as [this' d] eqn:Ec.
    cbn [fst snd] in *.
    assert (Ed : d = snd (createEstimate (duplicateData original) this))
      by now rewrite Ec.
    assert (Hid : Estimate.id d = currentId this) by now rewrite Ed.
    exists this', d.
    split; [reflexivity|]. split; [exact Hid|]. split; [lia|].
    rewrite Ed at 1 2 3 4 5 6 7 8.
    cbn [createEstimate snd duplicateData Estimate.containerId Estimate.status
         Estimate.destination Estimate.estimateDate Estimate.products
         Estimate.calculationResults Estimate.createdBy Estimate.userRole
         Insert.containerId Insert.status Insert.destination Insert.estimateDate
         Insert.products Insert.calculationResults Insert.createdBy
         Insert.userRole orDefault].
    repeat (split; [reflexivity|]).
    repeat (split; [rewrite Ed; apply orDefault_defaulted|]).
    split; [|split; assumption].
    rewrite Hother by lia. exact E.
Qed.

(** X18: on a store reached by calls from a new one, the delete route
    answers 204 exactly when the identifier parses and holds a record; and
    once it has, the record is gone: for the same identifier the get,
    delete and duplicate routes answer 404, the patch route answers 400
    or 404, and none of them changes the store. *)
Theorem deleteRoute_then_not_found (this : MemStorage Json) (idParam : string)
  (Hr : reachable this) :
  let this' := fst (delete idParam this) in
  (statusCode (snd (delete idParam this)) = 204%Z
   <-> exists id e, parseInt idParam = Some id /\ getEstimate id this = Some e)
  /\ (statusCode (snd (delete idParam this)) = 204%Z ->
      getOne idParam this' = (this', respond 404 (Message "Estimate not found"))
      /\ delete idParam this'
         = (this', respond 404 (Message "Estimate not found"))
      /\ duplicate idParam this'
         = (this', respond 404 (Message "Original estimate not found"))
      /\ (forall body,
            fst (patch idParam body this') = this'
            /\ (statusCode (snd (patch idParam body this')) = 400%Z
                \/ statusCode (snd (patch idParam body this')) = 404%Z))).
Proof.
  cbv zeta.
  destruct (delete idParam this) as [st resp] eqn:Edel. cbn [fst snd].
  unfold deleteRoute in Edel.
  destruct (parseInt idParam) as [id|] eqn:Ep.
  2:{ injection Edel as <- <-. cbn [respond statusCode]. split.
      - split; [discriminate | intros [id [e [H _]]]; discriminate].
      - discriminate. }
  destruct (@deleteEstimate_effect Json this id) as [Hfound [_ [_ Hreach]]].
  destruct (Hreach Hr) as [Hgone [_ Hagain]]. clear Hreach.
  destruct (deleteEstimate id this) as [this' found] eqn:Ed.
  cbn [fst snd] in *.
  destruct found; injection Edel as <- <-; cbn [respond statusCode].
  - split.
    + split; [intros _|reflexivity].
      destruct (getEstimate id this) as [e|] eqn:E.
      * now exists id, e.
      * exfalso. now apply (proj1 Hfound).
    + intros _.
      unfold getRoute, deleteRoute, duplicateRoute, patchRoute.
      rewrite Ep, Hgone.
      destruct (deleteEstimate id this') as [this'' found'] eqn:Ed'.
      cbn [snd] in Hagain. subst found'.
      assert (Esame : this'' = this').
      { pose proof (deleteEstimate_parts id this') as [Ee [Ec _]].
        rewrite Ed' in Ee, Ec. cbn [fst] in Ee, Ec.
        assert (Hm : snd (map_delete id (estimates this')) = estimates this').
        { clear - Hgone. unfold getEstimate in Hgone.
          induction (estimates this') as [|[k v] m IH]; [reflexivity|].
          cbn [map_get map_delete] in *.
          destruct (id =? k)%Z; [discriminate|].
          specialize (IH Hgone). destruct (map_delete id m). cbn [snd] in *.
          now rewrite IH. }
        destruct this'', this'. cbn [estimates currentId] in *. congruence. }
      subst this''.
      split; [reflexivity|]. split; [reflexivity|]. split; [reflexivity|].
      intros body. destruct (updateEstimateSchema_parse body) as [errors|data].
      * cbn [fst snd respond statusCode]. split; [reflexivity | now left].
      * unfold updateEstimate. unfold getEstimate in Hgone. rewrite Hgone.
        cbn [fst snd respond statusCode]. split; [reflexivity | now right].
  - split; [|discriminate]. split; [discriminate|].
    intros [id' [e [[= <-] E]]]. rewrite E in Hfound.
    assert (Hf : false = true) by (apply Hfound; discriminate). discriminate.
Qed.

Lemma run_app (calls calls' : list (Call Json)) (this : MemStorage Json) :
  fst (run (calls ++ calls') this) = fst (run calls' (fst (run calls this))).
Proof.
  revert this. induction calls as [|c calls IH]; intros this; cbn [app run].
  - reflexivity.
  - destruct (perform this c) as [this1 assigned]. specialize (IH this1).
    destruct (run (calls ++ calls') this1), (run calls this1). exact IH.
Qed.

Lemma reachable_step (this : MemStorage Json) (c : Call Json) :
  reachable this -> reachable (fst (perform this c)).
Proof.
  intros [calls ->]. exists (calls ++ [c]). rewrite run_app. cbn [run].
  now destruct (perform (fst (run calls (constructor Json))) c).
Qed.

Lemma handle_reachable (request : Request Body) (this : MemStorage Json) :
  reachable this -> reachable (fst (handleRequest request this)).
Proof.
  intros Hr. destruct request as [| s | q | i | body | i body | i | i];
    cbn [handle].
  - exact Hr.
  - exact Hr.
  - unfold searchRoute. destruct q as [q|]; [destruct (String.eqb q _)|]; exact Hr.
  - unfold getRoute. destruct (parseInt i); [|exact Hr].
    destruct (getEstimate _ _); exact Hr.
  - unfold createRoute. destruct (insertEstimateSchema_parse body) as [|data]; [exact Hr|].
    pose proof (reachable_step (Create data) Hr) as H1. cbn [perform] in H1.
    destruct (createEstimate data this). exact H1.
  - unfold patchRoute. destruct (parseInt i) as [id|]; [|exact Hr].
    destruct (updateEstimateSchema_parse body) as [|data]; [exact Hr|].
    pose proof (reachable_step (UpdateCall id data) Hr) as H1. cbn [perform fst] in H1.
    destruct (updateEstimate id data this) as [this' [e|]]; exact H1.
  - unfold deleteRoute. destruct (parseInt i) as [id|]; [|exact Hr].
    pose proof (reachable_step (@Delete Json id) Hr) as H1. cbn [perform fst] in H1.
    destruct (deleteEstimate id this) as [this' [|]]; exact H1.
  - unfold duplicateRoute. destruct (parseInt i) as [id|]; [|exact Hr].
    destruct (getEstimate id this) as [original|]; [|exact Hr].
    pose proof (reachable_step (Create (duplicateData original)) Hr) as H1.
    cbn [perform] in H1.
    destruct (createEstimate (duplicateData original) this). exact H1.
Qed.

(** X19: whatever requests the routes have served since the store was
    new, valid or not, the store is one reached by create, update and
    delete calls: every record sits under its own identifier, no
    identifier is held twice, and all lie below the next identifier. There
    is one response for each request. *)
Theorem serve_keeps_store_sound (requests : list (Request Body)) :
  let final := fst (serveAll requests (constructor Json)) in
  reachable final
  /\ ownIds final
  /\ keysBelowNext final
  /\ List.length (snd (serveAll requests (constructor Json))) = List.length requests.
Proof.
  cbv zeta.
  assert (G : forall (rs : list (Request Body)) (st : MemStorage Json),
             reachable st ->
             reachable (fst (serveAll rs st))
             /\ List.length (snd (serveAll rs st)) = List.length rs).
  { induction rs as [|r rs IH]; intros st Hst; cbn [serve].
    - now split.
    - pose proof (handle_reachable r Hst) as H1.
      destruct (handleRequest r st) as [st1 response]. cbn [fst] in H1.
      destruct (IH st1 H1) as [H2 H3].
      destruct (serveAll rs st1) as [final responses]. cbn [fst snd List.length] in *.
      split; [exact H2 | now rewrite H3]. }
  assert (H0 : reachable (constructor Json)) by (exists []; reflexivity).
  destruct (G requests _ H0) as [Hr Hl].
  split; [exact Hr|]. split; [now apply reachable_ownIds|].
  split; [now apply reachable_keysBelowNext | exact Hl].
Qed.

End RouteFacts.

(** Duplicating record 3 of the sample store, identifiers read as decimal
    digits. *)
Lemma duplicateRoute_copies_witness :
  reachable sampleStore
  /\ exists this' d,
       duplicateRoute unit parseDigits "3" sampleStore
       = (this', respond 201 (OneEstimate d))
       /\ Estimate.id d = 5%Z
       /\ Estimate.containerId d = "MSK-003-COPY"%string
       /\ getAllEstimates this' = d :: getAllEstimates sampleStore.
Proof.
  assert (H : reachable sampleStore) by (exists sampleCalls; reflexivity).
  split; [exact H|].
  destruct (proj2 (proj2 (@duplicateRoute_copies unit unit parseDigits sampleStore "3" H))
                  3%Z _ eq_refl eq_refl)
    as [this' [d R]].
  exists this', d.
  split; [exact (proj1 R)|].
  split; [exact (proj1 (proj2 R))|].
  split; [exact (proj1 (proj2 (proj2 (proj2 R))))|].
  exact (proj2 (proj2 (proj2 (proj2 (proj2 (proj2 (proj2 (proj2 (proj2 (proj2
          (proj2 (proj2 (proj2 (proj2 (proj2 (proj2 (proj2 (proj2 (proj2 (proj2
          (proj2 (proj2 (proj2 (proj2 (proj2 R))))))))))))))))))))))))).
Defined.

(** Deleting record 3 of the sample store and asking for it again. *)
Lemma deleteRoute_then_not_found_witness :
  reachable sampleStore
  /\ statusCode (snd (deleteRoute unit parseDigits "3" sampleStore)) = 204%Z
  /\ statusCode
       (snd (getRoute unit parseDigits "3"
               (fst (deleteRoute unit parseDigits "3" sampleStore))))
     = 404%Z.
Proof.
  assert (H : reachable sampleStore) by (exists sampleCalls; reflexivity).
  assert (Hd : statusCode (snd (deleteRoute unit parseDigits "3" sampleStore)) = 204%Z)
    by reflexivity.
  split; [exact H|]. split; [exact Hd|].
  rewrite (proj1 (proj2 (@deleteRoute_then_not_found
                           unit unit unit parseDigits (fun _ => inl tt)
                           sampleStore "3" H) Hd)).
  reflexivity.
Defined.

Example routes_on_sample_store :
  map (@statusCode unit unit)
      (snd (@serve unit unit unit asciiOnly parseDigits
              (fun _ : unit => inl tt) (fun _ : unit => inl tt)
              [GetOne unit "3"; GetOne unit "1"; GetOne unit "x3";
               DeleteOne unit "3"; DeleteOne unit "3"; PostDuplicate unit "2";
               GetSearch unit (Some EmptyString); GetSearch unit None;
               PostCreate tt; Patch "2" tt; GetList unit]
              sampleStore))
  = [200; 404; 400; 204; 404; 201; 400; 400; 400; 400; 200]%Z.
Proof. reflexivity. Qed.

(** * The search route and the empty query *)

Section SearchRoute.

Variable Json : Type.
Variable Issues : Type.
Context {L : LowerCase}.

(** X21: the search depends on the query through its lower-case form
    only, and an empty query matches every record: [toLowerCase] leaving
    the empty string empty, [searchEstimates] of the empty string is the
    full listing. The search route never gets that far: it answers 400
    for an absent or empty query, 200 with [searchEstimates] of the query
    otherwise, and never changes the store. *)
Theorem search_query_handling (this : MemStorage Json) :
  (forall q q', toLowerCase q = toLowerCase q' ->
                searchEstimates q this = searchEstimates q' this)
  /\ (toLowerCase EmptyString = EmptyString ->
      searchEstimates EmptyString this = getAllEstimates this)
  /\ searchRoute Issues None this
     = (this, respond 400 (Message "Search query is required"))
  /\ searchRoute Issues (Some EmptyString) this
     = (this, respond 400 (Message "Search query is required"))
  /\ (forall q, q <> EmptyString ->
                searchRoute Issues (Some q) this
                = (this, respond 200 (Estimates (searchEstimates q this)))).
Proof.
  split; [|split; [|split; [|split]]].
  - intros q q' E. unfold searchEstimates. cbv zeta. now rewrite E.
  - intros Hempty. unfold searchEstimates, getAllEstimates. cbv zeta. f_equal.
    apply forallb_filter_id. apply forallb_forall. intros e _.
    now rewrite Hempty, includes_empty.
  - reflexivity.
  - reflexivity.
  - intros q Hq. unfold searchRoute. apply String.eqb_neq in Hq. now rewrite Hq.
Qed.

End SearchRoute.

(** Two spellings of one query on the sample store. *)
Lemma search_query_handling_witness :
  @toLowerCase asciiOnly "HamBurg" = @toLowerCase asciiOnly "hamburg"
  /\ @searchEstimates unit asciiOnly "HamBurg" sampleStore
     = @searchEstimates unit asciiOnly "hamburg" sampleStore.
Proof.
  assert (H : @toLowerCase asciiOnly "HamBurg" = @toLowerCase asciiOnly "hamburg")
    by reflexivity.
  split; [exact H|].
  exact (proj1 (@search_query_handling unit unit asciiOnly sampleStore) _ _ H).
Defined.
